(** * Validation of the GroqCloud Whisper configuration record

    A shallow embedding of [custom_components/groq_whisper_cloud/config_flow.py]:
    the coroutine [validate_input], which checks a candidate configuration
    against the provider's model-listing endpoint, and the two config-flow
    steps that call it and turn its exceptions into form errors.

    The Python dict [data] that [validate_input] receives is mutated in
    place and is the very object the flow later persists, so it lives in an
    explicit state next to the logger's output; exceptions are results of a
    small state-and-exception monad. *)

From Stdlib Require Import ZArith QArith String Ascii List Bool Lia.
From stdpp Require Import base option gmap strings list fin_maps.

Close Scope Q_scope.
Open Scope Z_scope.
Open Scope string_scope.
Open Scope list_scope.

(** ** Python values *)

(** The values that can sit in the user's record or in a decoded JSON body.
    A float is denoted by the exact rational it represents (every finite
    binary64 value is one); NaN and the infinities are outside the model.
    [PDict] lists the items of a dict whose keys are strings, in insertion
    order; a Python dict never holds a key twice, which [wf_pyval] records. *)
#[local] Unset Elimination Schemes.
Inductive pyval : Type :=
| PNone
| PBool (b : bool)
| PInt (n : Z)
| PFloat (q : Q)
| PStr (s : string)
| PList (l : list pyval)
| PDict (d : list (string * pyval)).
#[local] Set Elimination Schemes.

(** Induction over values, reaching into lists and dict items. *)
Fixpoint pyval_ind (P : pyval -> Prop)
    (HNone : P PNone) (HBool : forall b, P (PBool b))
    (HInt : forall n, P (PInt n)) (HFloat : forall q, P (PFloat q))
    (HStr : forall s, P (PStr s))
    (HList : forall l, Forall P l -> P (PList l))
    (HDict : forall d, Forall (fun e => P (snd e)) d -> P (PDict d))
    (v : pyval) {struct v} : P v :=
  let rec := pyval_ind P HNone HBool HInt HFloat HStr HList HDict in
  match v with
  | PNone => HNone
  | PBool b => HBool b
  | PInt n => HInt n
  | PFloat q => HFloat q
  | PStr s => HStr s
  | PList l =>
      HList l ((fix all (xs : list pyval) : Forall P xs :=
                  match xs with
                  | [] => List.Forall_nil P
                  | x :: xs' => List.Forall_cons P x xs' (rec x) (all xs')
                  end) l)
  | PDict d =>
      HDict d ((fix all (es : list (string * pyval)) :
                    Forall (fun e => P (snd e)) es :=
                  match es with
                  | [] => List.Forall_nil _
                  | e :: es' => List.Forall_cons _ e es' (rec (snd e)) (all es')
                  end) d)
  end.

(** [d.get(k)] on the item list of a dict, [None] when the key is missing. *)
Fixpoint assoc {A : Type} (k : string) (d : list (string * A)) : option A :=
  match d with
  | [] => None
  | (k', v) :: r => if String.eqb k k' then Some v else assoc k r
  end.

(** The number a value compares as: [True == 1 == 1.0] in Python. *)
Definition py_num (v : pyval) : option Q :=
  match v with
  | PBool b => Some (inject_Z (if b then 1 else 0))
  | PInt n => Some (inject_Z n)
  | PFloat q => Some q
  | _ => None
  end.

(** Pointwise comparison of two sequences of the same length. *)
Fixpoint all2 {A B : Type} (f : A -> B -> bool) (xs : list A) (ys : list B) : bool :=
  match xs, ys with
  | [], [] => true
  | x :: xs', y :: ys' => f x y && all2 f xs' ys'
  | _, _ => false
  end.

(** Python's [a == b] on these values: numbers by value across bool, int
    and float; strings by content; lists pointwise; dicts by size and then
    key by key, whatever the order of the items. *)
Fixpoint py_eq (a b : pyval) {struct a} : bool :=
  match a, b with
  | PNone, PNone => true
  | PStr s, PStr t => String.eqb s t
  | PList l, PList l' => all2 py_eq l l'
  | PDict d, PDict d' =>
      Nat.eqb (length d) (length d') &&
      forallb (fun e => match assoc (fst e) d' with
                        | Some v' => py_eq (snd e) v'
                        | None => false
                        end) d
  | _, _ =>
      match py_num a, py_num b with
      | Some x, Some y => Qeq_bool x y
      | _, _ => false
      end
  end.

(** No key occurs twice in a dict, at any depth. *)
Fixpoint distinct_keys (ks : list string) : bool :=
  match ks with
  | [] => true
  | k :: r => negb (existsb (String.eqb k) r) && distinct_keys r
  end.

Fixpoint wf_pyval (v : pyval) : bool :=
  match v with
  | PList l => forallb wf_pyval l
  | PDict d =>
      distinct_keys (map fst d) && forallb (fun e => wf_pyval (snd e)) d
  | _ => true
  end.

(** [v is None] *)
Definition is_None (v : pyval) : bool :=
  match v with PNone => true | _ => false end.

(** ** Exceptions *)

(** The subclasses of [requests.exceptions.RequestException] that matter
    here; the flow catches all of them through the base class. *)
Inductive request_exception : Type :=
| ConnectionError     (* connection refused, DNS failure, ... *)
| Timeout
| OtherRequestException.

Inductive exn : Type :=
| RequestException (k : request_exception)
| UnknownError
| UnauthorizedError
| InvalidAPIKey
| WhisperModelNotFound
| AttributeError
| TypeError
| KeyError
| IndexError.

(** The four kinds the validator raises itself. *)
Definition is_domain_error (e : exn) : bool :=
  match e with
  | UnknownError | UnauthorizedError | InvalidAPIKey | WhisperModelNotFound => true
  | _ => false
  end.

(** What a call gives: a value, or an exception raised. *)
Inductive result (A : Type) : Type :=
| Return (a : A)
| Raise (e : exn).
Arguments Return {A} a.
Arguments Raise {A} e.

(** ** The record, the logger and the remote call *)

(** [homeassistant.const] *)
Definition CONF_API_KEY : string := "api_key".
Definition CONF_MODEL : string := "model".
Definition CONF_NAME : string := "name".

(** Modelled from the spec: [const.py] is not part of the sources; the spec
    names the two optional fields of the record [temperature] and [prompt],
    and these are the keys [CONF_TEMPERATURE] and [CONF_PROMPT] stand for. *)
Definition CONF_TEMPERATURE : string := "temperature".
Definition CONF_PROMPT : string := "prompt".

(** What [validate_input] writes over the credential before tracing. *)
Definition API_KEY_MASK : pyval := PStr "<api_key>".

(** One call on [_LOGGER]: level, format string and the arguments as they
    are at the time of the call (the standard handlers format a record
    before the call returns, so a dict argument is captured as it is then). *)
Inductive log_level : Type := DEBUG | ERROR | EXCEPTION.

Inductive log_arg : Type :=
| ArgDict (d : gmap string pyval)
| ArgVal (v : pyval)
| ArgInt (n : Z)
| ArgExn (e : exn).

Record log_record : Type := LogRecord {
  level : log_level;
  msg : string;
  args : list log_arg
}.

(** The arguments of [requests.get]. The [Authorization] header is the text
    [Bearer ] followed by the rendering of [bearer]. *)
Record request : Type := Request {
  url : string;
  bearer : pyval;
  content_type : string
}.

(** What [validate_input] reads of a [requests.Response]: the attributes
    [status_code], [reason] and [elapsed.seconds], and what a call of
    [json()] gives, the decoded body or the exception for a body that does
    not decode. *)
Record response : Type := Response {
  status_code : Z;
  reason : pyval;
  elapsed_seconds : Z;
  json : result pyval
}.

(** ** State and exceptions *)

Record state : Type := State {
  data : gmap string pyval;     (* the dict passed to [validate_input] *)
  logger : list log_record      (* what [_LOGGER] has emitted, oldest first *)
}.

Definition M (A : Type) : Type := state -> result A * state.

Definition ret {A} (a : A) : M A := fun st => (Return a, st).

Definition bind {A B} (m : M A) (f : A -> M B) : M B :=
  fun st =>
    match m st with
    | (Return a, st') => f a st'
    | (Raise e, st') => (Raise e, st')
    end.

Definition raise {A} (e : exn) : M A := fun st => (Raise e, st).

Declare Scope py_scope.
Delimit Scope py_scope with py.
Notation "x <- m ;; k" := (bind m (fun x => k))
  (at level 100, m at next level, right associativity) : py_scope.
Notation "m ;; k" := (bind m (fun _ => k))
  (at level 100, right associativity) : py_scope.
Open Scope py_scope.

(** [d.get(k)] on a dict: the value under [k], [None] without one. *)
Definition field (k : string) (d : gmap string pyval) : pyval :=
  default PNone (d !! k).

(** [data.get(k)] *)
Definition data_get (k : string) : M pyval :=
  fun st => (Return (field k (data st)), st).

(** [data[k] = v] *)
Definition data_set (k : string) (v : pyval) : M unit :=
  fun st => (Return tt, {| data := <[k := v]> (data st); logger := logger st |}).

(** The dict itself, as passed to a call. *)
Definition data_ref : M (gmap string pyval) :=
  fun st => (Return (data st), st).

Definition log (lv : log_level) (fmt : string) (a : list log_arg) : M unit :=
  fun st => (Return tt, {| data := data st;
                           logger := logger st ++ [LogRecord lv fmt a] |}).

Definition lift {A} (r : result A) : M A := fun st => (r, st).

(** [v.get(k)] and [v.get(k, dflt)] on a decoded JSON value: only a dict
    has the method. *)
Definition py_get (v : pyval) (k : string) (dflt : pyval) : result pyval :=
  match v with
  | PDict d => Return (default dflt (assoc k d))
  | _ => Raise AttributeError
  end.

(** The elements [for x in v] runs through. *)
Definition py_iter (v : pyval) : result (list pyval) :=
  match v with
  | PList l => Return l
  | PStr s => Return (map (fun c => PStr (String c EmptyString)) (list_ascii_of_string s))
  | PDict d => Return (map (fun e => PStr (fst e)) d)
  | _ => Raise TypeError
  end.

(** [v[-1]] *)
Definition py_last (v : pyval) : result pyval :=
  match v with
  | PList l =>
      match last l with
      | Some x => Return x
      | None => Raise IndexError
      end
  | PStr s =>
      match last (list_ascii_of_string s) with
      | Some c => Return (PStr (String c EmptyString))
      | None => Raise IndexError
      end
  | PDict _ => Raise KeyError
  | _ => Raise TypeError
  end.

(** [response.json()] *)
Definition response_json (r : response) : result pyval := json r.

(** [try: body except ... : handler]; a handler re-raises what none of its
    clauses matches. *)
Definition try_except {A} (body : M A) (handler : exn -> M A) : M A :=
  fun st =>
    match body st with
    | (Raise e, st') => handler e st'
    | r => r
    end.

(** ** The validator and the two flow steps *)

Section ConfigFlow.

(** [const.py] is not part of the sources: its default values are taken
    as they come. *)
Variable DEFAULT_TEMPERATURE : pyval.
Variable DEFAULT_PROMPT : pyval.
Variable DEFAULT_NAME : pyval.

(** [requests.get], run through [asyncio.to_thread]: the provider's answer
    to a request, or the exception the transport raises. *)
Variable requests_get : request -> result response.

(** The [for model in ...] loop of [validate_input], over the elements not
    yet visited. [ret tt] is leaving the loop, by [break] or at its end. *)
Fixpoint find_model (resp : response) (models : list pyval) : M unit :=
  match models with
  | [] => ret tt
  | model :: rest =>
      id <- lift (py_get model "id" PNone) ;;
      wanted <- data_get CONF_MODEL ;;
      if py_eq id wanted then ret tt
      else
        (body <- lift (response_json resp) ;;
         listed <- lift (py_get body "data" PNone) ;;
         final <- lift (py_last listed) ;;
         if py_eq model final then raise WhisperModelNotFound
         else find_model resp rest)
  end.

Definition validate_input : M unit :=
  obscured_api_key <- data_get CONF_API_KEY ;;
  data_set CONF_API_KEY API_KEY_MASK ;;
  shown <- data_ref ;;
  log DEBUG "User validation got: %s" [ArgDict shown] ;;
  data_set CONF_API_KEY obscured_api_key ;;
  temperature <- data_get CONF_TEMPERATURE ;;
  (if is_None temperature
   then data_set CONF_TEMPERATURE DEFAULT_TEMPERATURE else ret tt) ;;
  prompt <- data_get CONF_PROMPT ;;
  (if is_None prompt
   then data_set CONF_PROMPT DEFAULT_PROMPT else ret tt) ;;
  api_key <- data_get CONF_API_KEY ;;
  resp <- lift (requests_get
                  {| url := "https://api.groq.com/openai/v1/models";
                     bearer := api_key;
                     content_type := "application/json" |}) ;;
  log DEBUG "Models request took %f s and returned %d - %s"
      [ArgInt (elapsed_seconds resp); ArgInt (status_code resp);
       ArgVal (reason resp)] ;;
  if Z.eqb (status_code resp) 401 then raise InvalidAPIKey
  else if Z.eqb (status_code resp) 403 then raise UnauthorizedError
  else if negb (Z.eqb (status_code resp) 200) then raise UnknownError
  else
    (body <- lift (response_json resp) ;;
     listed <- lift (py_get body "data" (PList [])) ;;
     models <- lift (py_iter listed) ;;
     find_model resp models ;;
     log DEBUG "User validation successful" []).

(** What a flow step hands back to the host platform. *)
Record config_entry : Type := ConfigEntry {
  unique_id : pyval;
  entry_data : gmap string pyval
}.

Inductive flow_result : Type :=
| CreateEntry (title : pyval) (new_data : gmap string pyval)
| ShowForm (step_id : string) (suggested_values : option (gmap string pyval))
           (errors : gmap string string)
| Abort (why : string)
| UpdateReloadAndAbort (entry : config_entry) (title : pyval) (uid : pyval)
                       (new_data : gmap string pyval) (why : string).

(** The [except] clauses, the same in both steps, in the order of the
    source; each leaves the [errors] dict it has filled. [_LOGGER.error(e)]
    has the exception itself as its message. *)
Definition except_clauses (e : exn) : M (gmap string string) :=
  match e with
  | RequestException _ =>
      log ERROR "%s" [ArgExn e] ;;
      ret (<["base" := "connection_error"]> ∅)
  | UnauthorizedError =>
      log EXCEPTION "Unauthorized" [] ;;
      ret (<["base" := "unauthorized"]> ∅)
  | InvalidAPIKey =>
      log EXCEPTION "Invalid API key" [] ;;
      ret (<[CONF_API_KEY := "invalid_api_key"]> ∅)
  | WhisperModelNotFound =>
      log EXCEPTION "Whisper Model Not Found" [] ;;
      ret (<["base" := "whisper_model_not_found"]> ∅)
  | UnknownError =>
      log EXCEPTION "Unknown error" [] ;;
      ret (<["base" := "unknown"]> ∅)
  | _ => raise e
  end.

(** [async_step_user]: the state's [data] is the [user_input] dict when
    there is one. The step returns its result and the logger's output. *)
Definition async_step_user (user_input : option (gmap string pyval))
    (lg : list log_record) : result flow_result * list log_record :=
  match user_input with
  | Some d =>
      let '(r, st) :=
        try_except
          (validate_input ;;
           user_input <- data_ref ;;
           ret (CreateEntry (default DEFAULT_NAME (user_input !! CONF_NAME))
                            user_input))
          (fun e =>
             errors <- except_clauses e ;;
             ret (ShowForm "user" None errors))
          {| data := d; logger := lg |} in
      (r, logger st)
  | None => (Return (ShowForm "user" None ∅), lg)
  end.

(** [async_step_reconfigure]. [suggested_values] is bound before the
    validation to [user_input] itself unless that is [None] or empty, so
    the form shown after a failure displays the dict as [validate_input]
    left it. *)
Definition async_step_reconfigure (entry : option config_entry)
    (user_input : option (gmap string pyval))
    (lg : list log_record) : result flow_result * list log_record :=
  match entry with
  | None => (Return (Abort "reconfigure_failed"), lg)
  | Some config_entry =>
      match user_input with
      | Some d =>
          let '(r, st) :=
            try_except
              (validate_input ;;
               user_input <- data_ref ;;
               ret (UpdateReloadAndAbort config_entry
                      (default DEFAULT_NAME (user_input !! CONF_NAME))
                      (unique_id config_entry) user_input
                      "reconfigure_successful"))
              (fun e =>
                 errors <- except_clauses e ;;
                 user_input <- data_ref ;;
                 ret (ShowForm "reconfigure"
                        (Some (if bool_decide (d = ∅)
                               then entry_data config_entry else user_input))
                        errors))
              {| data := d; logger := lg |} in
          (r, logger st)
      | None =>
          (Return (ShowForm "reconfigure" (Some (entry_data config_entry)) ∅), lg)
      end
  end.

(** ** The dict and the log as [validate_input] builds them *)

(** [if d.get(k) is None: d[k] = v] *)
Definition fill_default (k : string) (v : pyval) (d : gmap string pyval)
  : gmap string pyval :=
  if is_None (field k d) then <[k := v]> d else d.

(** The dict after the masking, the restoring and the two defaults. *)
Definition normalized (d : gmap string pyval) : gmap string pyval :=
  fill_default CONF_PROMPT DEFAULT_PROMPT
    (fill_default CONF_TEMPERATURE DEFAULT_TEMPERATURE
       (<[CONF_API_KEY := field CONF_API_KEY d]>
          (<[CONF_API_KEY := API_KEY_MASK]> d))).

(** The three records [validate_input] can emit. *)
Definition got_trace (d : gmap string pyval) : log_record :=
  LogRecord DEBUG "User validation got: %s"
            [ArgDict (<[CONF_API_KEY := API_KEY_MASK]> d)].

Definition request_trace (resp : response) : log_record :=
  LogRecord DEBUG "Models request took %f s and returned %d - %s"
            [ArgInt (elapsed_seconds resp); ArgInt (status_code resp);
             ArgVal (reason resp)].

Definition success_trace : log_record :=
  LogRecord DEBUG "User validation successful" [].

(** The request [validate_input] sends for a record. *)
Definition models_request (d : gmap string pyval) : request :=
  {| url := "https://api.groq.com/openai/v1/models";
     bearer := field CONF_API_KEY d;
     content_type := "application/json" |}.

End ConfigFlow.

(** ** Reading a model listing *)

(** A model descriptor is a JSON object; [has_id wanted m] says that its
    [id] member compares equal to [wanted]. *)
Definition is_dict (v : pyval) : bool :=
  match v with PDict _ => true | _ => false end.

Definition has_id (wanted m : pyval) : bool :=
  match m with
  | PDict e => py_eq (default PNone (assoc "id" e)) wanted
  | _ => false
  end.

(** A log record with a dict among its arguments. *)
Definition shows_dict (r : log_record) : bool :=
  existsb (fun a => match a with ArgDict _ => true | _ => false end) (args r).

(** The exceptions one of the [except] clauses of the flow steps catches. *)
Definition is_handled (e : exn) : bool :=
  match e with
  | RequestException _ => true
  | _ => is_domain_error e
  end.

(** ** Sample data *)

(** The record of the spec's scenario: no [temperature], no [prompt]. *)
Definition sample_record : gmap string pyval :=
  <[CONF_NAME := PStr "My Whisper"]>
    (<[CONF_API_KEY := PStr "sk-abc"]>
       (<[CONF_MODEL := PStr "whisper-large-v3"]> ∅)).

Definition sample_temperature : pyval := PFloat (inject_Z 0).
Definition sample_prompt : pyval := PStr "".
Definition sample_name : pyval := PStr "GroqCloud Whisper".

(** A provider that answers every request with the same status and body. *)
Definition answer (status : Z) (body : result pyval) : request -> result response :=
  fun _ => Return (Response status (PStr "") 0 body).

(** An error page: [json()] on it raises. *)
Definition no_body : result pyval := Raise (RequestException OtherRequestException).

(** The body [{"data": [{"id": i1}, {"id": i2}, ...]}]. *)
Definition listing (ids : list string) : result pyval :=
  Return (PDict [("data", PList (map (fun i => PDict [("id", PStr i)]) ids))]).

(** A transport that fails. *)
Definition unreachable (k : request_exception) : request -> result response :=
  fun _ => Raise (RequestException k).

(** The response [answer] gives, and the descriptors of a [listing]. *)
Definition reply (status : Z) (body : result pyval) : response :=
  Response status (PStr "") 0 body.

Definition descriptors (ids : list string) : list pyval :=
  map (fun i => PDict [("id", PStr i)]) ids.

(** A body with the given [data] member. *)
Definition body_with_data (v : pyval) : result pyval :=
  Return (PDict [("data", v)]).

(** A record without [model], and an entry to reconfigure. *)
Definition record_without_model : gmap string pyval :=
  <[CONF_API_KEY := PStr "sk-abc"]> ∅.

Definition sample_entry : config_entry :=
  ConfigEntry (PStr "entry-1") sample_record.

(** A transport that answers 401 to a textual credential and times out on
    anything else. *)
Definition picky_transport : request -> result response :=
  fun rq =>
    match bearer rq with
    | PStr _ => Return (reply 401 no_body)
    | _ => Raise (RequestException Timeout)
    end.

(** * Properties *)

(** ** Equality of Python values *)

Lemma assoc_not_in {A} k (d : list (string * A)) :
  existsb (String.eqb k) (map fst d) = false -> assoc k d = None.
Proof.
  induction d as [|[k' v] r IH]; simpl; [done|].
  destruct (String.eqb k k'); simpl; [done | exact IH].
Qed.

(** In a dict with distinct keys, every item is the one its key finds. *)
Lemma assoc_distinct {A} (d : list (string * A)) k v :
  distinct_keys (map fst d) = true -> In (k, v) d -> assoc k d = Some v.
Proof.
  induction d as [|[k' v'] r IH]; simpl; [done|].
  intros [Hk Hr]%andb_prop [Heq|Hin].
  - inversion Heq; subst. by rewrite String.eqb_refl.
  - destruct (String.eqb k k') eqn:E.
    + apply String.eqb_eq in E; subst k'.
      apply negb_true_iff in Hk.
      rewrite (assoc_not_in _ _ Hk) in IH.
      by specialize (IH Hr Hin).
    + by apply IH.
Qed.

(** [==] is reflexive on values whose dicts have distinct keys. *)
Lemma py_eq_refl v : wf_pyval v = true -> py_eq v v = true.
Proof.
  induction v as [| b | n | q | s | l IH | d IH] using pyval_ind;
    simpl; intros Hwf; try done.
  - apply Qeq_bool_refl.
  - apply Qeq_bool_refl.
  - apply Qeq_bool_refl.
  - apply String.eqb_refl.
  - induction IH as [|x xs Hx _ IHxs]; [done|].
    simpl in Hwf. apply andb_prop in Hwf as [Hwx Hwxs].
    simpl. by rewrite (Hx Hwx), (IHxs Hwxs).
  - apply andb_prop in Hwf as [Hkeys Hvals].
    rewrite Nat.eqb_refl. simpl.
    apply forallb_forall. intros [k v] Hin. simpl.
    rewrite (assoc_distinct d k v Hkeys Hin).
    rewrite Forall_forall in IH.
    apply (IH (k, v)); [by apply list_elem_of_In|].
    rewrite forallb_forall in Hvals. exact (Hvals _ Hin).
Qed.

(** ** The record as the validator leaves it *)

Section Validator.

Variable DEFAULT_TEMPERATURE : pyval.
Variable DEFAULT_PROMPT : pyval.
Variable DEFAULT_NAME : pyval.
Variable requests_get : request -> result response.

Local Abbreviation validate :=
  (validate_input DEFAULT_TEMPERATURE DEFAULT_PROMPT requests_get).
Local Abbreviation normal :=
  (normalized DEFAULT_TEMPERATURE DEFAULT_PROMPT).
Local Abbreviation step_user :=
  (async_step_user DEFAULT_TEMPERATURE DEFAULT_PROMPT DEFAULT_NAME requests_get).
Local Abbreviation step_reconfigure :=
  (async_step_reconfigure DEFAULT_TEMPERATURE DEFAULT_PROMPT DEFAULT_NAME requests_get).

Lemma fill_default_lookup_ne k v d k' :
  k ≠ k' -> fill_default k v d !! k' = d !! k'.
Proof.
  intros Hne. unfold fill_default.
  destruct (is_None (field k d)); [by rewrite lookup_insert_ne | done].
Qed.

Lemma fill_default_absent k v d :
  field k d = PNone -> fill_default k v d !! k = Some v.
Proof.
  intros H. unfold fill_default. rewrite H. simpl. apply lookup_insert_eq.
Qed.

Lemma fill_default_present k v d :
  field k d ≠ PNone -> fill_default k v d = d.
Proof.
  intros H. unfold fill_default. by destruct (field k d).
Qed.

Lemma field_ne k k' v d : k ≠ k' -> field k' (<[k := v]> d) = field k' d.
Proof. intros H. unfold field. by rewrite lookup_insert_ne. Qed.

Lemma field_fill_default_ne k v d k' :
  k ≠ k' -> field k' (fill_default k v d) = field k' d.
Proof. intros H. unfold field. by rewrite fill_default_lookup_ne. Qed.

(** A key other than the three [validate_input] writes keeps its entry. *)
Lemma normalized_other d k :
  k ≠ CONF_API_KEY -> k ≠ CONF_TEMPERATURE -> k ≠ CONF_PROMPT ->
  normal d !! k = d !! k.
Proof.
  intros Ha Ht Hp. unfold normalized.
  rewrite !fill_default_lookup_ne by done.
  by rewrite !lookup_insert_ne.
Qed.

Lemma normalized_api_key_lookup d :
  normal d !! CONF_API_KEY = Some (field CONF_API_KEY d).
Proof.
  unfold normalized.
  rewrite !fill_default_lookup_ne by done.
  apply lookup_insert_eq.
Qed.

Lemma normalized_api_key d :
  field CONF_API_KEY (normal d) = field CONF_API_KEY d.
Proof. unfold field at 1. by rewrite normalized_api_key_lookup. Qed.

Lemma normalized_api_key_present d :
  is_Some (d !! CONF_API_KEY) ->
  normal d !! CONF_API_KEY = d !! CONF_API_KEY.
Proof.
  intros [v Hv]. rewrite normalized_api_key_lookup. unfold field. by rewrite Hv.
Qed.

Lemma normalized_model d : field CONF_MODEL (normal d) = field CONF_MODEL d.
Proof. unfold field. by rewrite normalized_other. Qed.

Lemma normalized_temperature_absent d :
  field CONF_TEMPERATURE d = PNone ->
  normal d !! CONF_TEMPERATURE = Some DEFAULT_TEMPERATURE.
Proof.
  intros H. unfold normalized.
  rewrite fill_default_lookup_ne by done.
  apply fill_default_absent.
  by rewrite !field_ne.
Qed.

Lemma normalized_temperature_present d :
  field CONF_TEMPERATURE d ≠ PNone ->
  normal d !! CONF_TEMPERATURE = d !! CONF_TEMPERATURE.
Proof.
  intros H. unfold normalized.
  rewrite fill_default_lookup_ne by done.
  rewrite fill_default_present by (by rewrite !field_ne).
  by rewrite !lookup_insert_ne.
Qed.

Lemma normalized_prompt_absent d :
  field CONF_PROMPT d = PNone ->
  normal d !! CONF_PROMPT = Some DEFAULT_PROMPT.
Proof.
  intros H. unfold normalized.
  apply fill_default_absent.
  rewrite field_fill_default_ne by done.
  by rewrite !field_ne.
Qed.

Lemma normalized_prompt_present d :
  field CONF_PROMPT d ≠ PNone ->
  normal d !! CONF_PROMPT = d !! CONF_PROMPT.
Proof.
  intros H. unfold normalized.
  rewrite fill_default_present
    by (rewrite field_fill_default_ne by done; by rewrite !field_ne).
  rewrite fill_default_lookup_ne by done.
  by rewrite !lookup_insert_ne.
Qed.

(** The loop reads the dict and the response and writes nothing. *)
Lemma find_model_state resp models st : snd (find_model resp models st) = st.
Proof.
  induction models as [|model rest IH]; [done|].
  cbn [find_model]. cbv [bind lift data_get ret raise].
  destruct (py_get model "id" PNone); [|done].
  destruct (py_eq _ _); [done|].
  destruct (response_json resp); [|done].
  destruct (py_get _ "data" PNone); [|done].
  destruct (py_last _); [|done].
  destruct (py_eq _ _); [done | apply IH].
Qed.

(** [validate_input] run on a dict [d]: the dict is normalized and traced
    with the credential masked, one request is made, and what follows
    depends on the answer alone. *)
Lemma validate_input_unfold d lg :
  validate (State d lg) =
  let st1 := State (normal d) (lg ++ [got_trace d]) in
  match requests_get (models_request d) with
  | Raise e => (Raise e, st1)
  | Return resp =>
      let st2 := State (normal d)
                       ((lg ++ [got_trace d]) ++ [request_trace resp]) in
      if Z.eqb (status_code resp) 401 then (Raise InvalidAPIKey, st2)
      else if Z.eqb (status_code resp) 403 then (Raise UnauthorizedError, st2)
      else if negb (Z.eqb (status_code resp) 200) then (Raise UnknownError, st2)
      else
        match response_json resp with
        | Raise e => (Raise e, st2)
        | Return body =>
            match py_get body "data" (PList []) with
            | Raise e => (Raise e, st2)
            | Return listed =>
                match py_iter listed with
                | Raise e => (Raise e, st2)
                | Return models =>
                    match fst (find_model resp models st2) with
                    | Return _ =>
                        (Return tt,
                         State (normal d) (logger st2 ++ [success_trace]))
                    | Raise e => (Raise e, st2)
                    end
                end
            end
        end
  end.
Proof.
  cbv [validate_input bind ret raise lift data_get data_set data_ref log].
  cbn [data logger].
  fold (got_trace d).
  assert (Hkey : forall x, field CONF_API_KEY x = field CONF_API_KEY d ->
            {| url := "https://api.groq.com/openai/v1/models";
               bearer := field CONF_API_KEY x;
               content_type := "application/json" |} = models_request d)
    by (by intros x ->).
  unfold normalized, fill_default.
  destruct (is_None (field CONF_TEMPERATURE _)); cbn [data logger];
    destruct (is_None (field CONF_PROMPT _)); cbn [data logger];
    (rewrite Hkey by (rewrite ?field_ne by done; unfold field at 1;
                      by rewrite lookup_insert_eq));
    (destruct (requests_get (models_request d)) as [resp|e]; [|done]);
    fold (request_trace resp);
    (destruct (Z.eqb (status_code resp) 401); [done|]);
    (destruct (Z.eqb (status_code resp) 403); [done|]);
    (destruct (negb (Z.eqb (status_code resp) 200)); [done|]);
    (destruct (response_json resp) as [body|e]; [|done]);
    (destruct (py_get body "data" (PList [])) as [listed|e]; [|done]);
    (destruct (py_iter listed) as [models|e]; [|done]);
    match goal with
    | |- context [find_model resp models ?st] =>
        pose proof (find_model_state resp models st) as Hst;
        destruct (find_model resp models st) as [[[]|e] st'];
        cbn [fst snd] in *; subst st'; reflexivity
    end.
Qed.

(** ** The search through the listing *)

Section Listing.

Variable resp : response.
Variable body : pyval.
Variable listed : list pyval.
Variable final : pyval.
Hypothesis Hjson : response_json resp = Return body.
Hypothesis Hdata : py_get body "data" PNone = Return (PList listed).
Hypothesis Hfinal : last listed = Some final.

(** One turn of the loop on a descriptor whose [id] is not the wanted one. *)
Lemma find_model_step e rest st :
  has_id (field CONF_MODEL (data st)) (PDict e) = false ->
  find_model resp (PDict e :: rest) st =
  if py_eq (PDict e) final then (Raise WhisperModelNotFound, st)
  else find_model resp rest st.
Proof.
  intros Hid. cbn [find_model]. cbv [bind lift data_get ret raise].
  cbn [py_get]. cbn [has_id] in Hid. rewrite Hid, Hjson, Hdata.
  cbn [py_last]. rewrite Hfinal.
  by destruct (py_eq (PDict e) final).
Qed.

(** The wanted model is found when no descriptor before it compares equal
    to the last one of the listing. *)
Lemma find_model_hit pre m post st :
  Forall (fun x => is_dict x = true
                   /\ has_id (field CONF_MODEL (data st)) x = false
                   /\ py_eq x final = false) pre ->
  has_id (field CONF_MODEL (data st)) m = true ->
  fst (find_model resp (pre ++ m :: post) st) = Return tt.
Proof.
  intros Hpre Hm. induction Hpre as [|x pre (Hd & Hid & Hne) _ IH].
  - destruct m as [| | | | | |e]; try discriminate Hm.
    cbn [app find_model]. cbv [bind lift data_get ret]. cbn [py_get].
    cbn [has_id] in Hm. by rewrite Hm.
  - destruct x as [| | | | | |e]; try discriminate Hd.
    cbn [app]. rewrite find_model_step by done. by rewrite Hne.
Qed.

(** A listing that runs out without a match ends in [WhisperModelNotFound],
    at the latest on its last descriptor. *)
Lemma find_model_miss models st :
  last models = Some final ->
  py_eq final final = true ->
  Forall (fun x => is_dict x = true
                   /\ has_id (field CONF_MODEL (data st)) x = false) models ->
  fst (find_model resp models st) = Raise WhisperModelNotFound.
Proof.
  intros Hlast Hrefl Hall. induction Hall as [|x rest (Hd & Hid) _ IH].
  - discriminate Hlast.
  - destruct x as [| | | | | |e]; try discriminate Hd.
    rewrite find_model_step by done.
    destruct (py_eq (PDict e) final) eqn:E; [done|].
    apply IH. destruct rest as [|y rest]; [|by rewrite last_cons_cons in Hlast].
    rewrite last_singleton in Hlast. injection Hlast as <-. congruence.
Qed.

End Listing.

(** ** What the validator answers *)

(** The dict at the end is the normalized one, whatever happened. *)
Lemma validate_input_data d lg :
  data (snd (validate (State d lg))) = normal d.
Proof.
  rewrite validate_input_unfold. cbv zeta.
  destruct (requests_get (models_request d)) as [resp|e]; [|done].
  destruct (Z.eqb (status_code resp) 401); [done|].
  destruct (Z.eqb (status_code resp) 403); [done|].
  destruct (negb (Z.eqb (status_code resp) 200)); [done|].
  destruct (response_json resp) as [body|e]; [|done].
  destruct (py_get body "data" (PList [])) as [listed|e]; [|done].
  destruct (py_iter listed) as [models|e]; [|done].
  by destruct (fst (find_model resp models _)).
Qed.

(** The logger receives the masked trace of the dict first, and after it
    nothing that shows a dict. *)
Lemma validate_input_logger d lg :
  exists rest,
    logger (snd (validate (State d lg))) = lg ++ got_trace d :: rest
    /\ forallb (fun r => negb (shows_dict r)) rest = true.
Proof.
  rewrite validate_input_unfold. cbv zeta.
  destruct (requests_get (models_request d)) as [resp|e];
    [|by exists []].
  assert (Hfail : forall x : result unit,
    exists rest,
      logger (snd (x, State (normal d)
                            ((lg ++ [got_trace d]) ++ [request_trace resp])))
      = lg ++ got_trace d :: rest
      /\ forallb (fun r => negb (shows_dict r)) rest = true).
  { intros x. exists [request_trace resp]. cbn [snd logger].
    by rewrite <- app_assoc. }
  destruct (Z.eqb (status_code resp) 401); [apply Hfail|].
  destruct (Z.eqb (status_code resp) 403); [apply Hfail|].
  destruct (negb (Z.eqb (status_code resp) 200)); [apply Hfail|].
  destruct (response_json resp) as [body|e]; [|apply Hfail].
  destruct (py_get body "data" (PList [])) as [listed|e]; [|apply Hfail].
  destruct (py_iter listed) as [models|e]; [|apply Hfail].
  destruct (fst (find_model resp models _)); [|apply Hfail].
  exists [request_trace resp; success_trace]. cbn [snd logger].
  by rewrite <- !app_assoc.
Qed.

(** Status 200 and a listing of descriptors in which the wanted model
    comes before any descriptor equal to the last one: success. *)
Lemma validate_input_listed d lg resp members pre m post final :
  requests_get (models_request d) = Return resp ->
  status_code resp = 200 ->
  json resp = Return (PDict members) ->
  assoc "data" members = Some (PList (pre ++ m :: post)) ->
  last (pre ++ m :: post) = Some final ->
  Forall (fun x => is_dict x = true
                   /\ has_id (field CONF_MODEL d) x = false
                   /\ py_eq x final = false) pre ->
  has_id (field CONF_MODEL d) m = true ->
  fst (validate (State d lg)) = Return tt.
Proof.
  intros Hreq Hst Hjson Hdata Hlast Hpre Hm.
  rewrite validate_input_unfold, Hreq. cbv zeta. rewrite Hst. cbn [Z.eqb Pos.eqb negb].
  unfold response_json. rewrite Hjson. cbn [py_get]. rewrite Hdata.
  cbn [default from_option id py_iter].
  erewrite (find_model_hit resp (PDict members) (pre ++ m :: post) final).
  - done.
  - unfold response_json. by rewrite Hjson.
  - cbn [py_get]. by rewrite Hdata.
  - done.
  - cbn [data]. by rewrite normalized_model.
  - cbn [data]. by rewrite normalized_model.
Qed.

(** Status 200 and a listing with at least one descriptor, none of them
    the wanted model: [WhisperModelNotFound]. *)
Lemma validate_input_not_listed d lg resp members listed :
  requests_get (models_request d) = Return resp ->
  status_code resp = 200 ->
  json resp = Return (PDict members) ->
  assoc "data" members = Some (PList listed) ->
  listed ≠ [] ->
  forallb is_dict listed = true ->
  forallb wf_pyval listed = true ->
  existsb (has_id (field CONF_MODEL d)) listed = false ->
  fst (validate (State d lg)) = Raise WhisperModelNotFound.
Proof.
  intros Hreq Hst Hjson Hdata Hne Hdict Hwf Hnone.
  destruct (proj2 (last_is_Some listed) Hne) as [final Hfinal].
  rewrite validate_input_unfold, Hreq. cbv zeta. rewrite Hst. cbn [Z.eqb Pos.eqb negb].
  unfold response_json. rewrite Hjson. cbn [py_get]. rewrite Hdata.
  cbn [default from_option id py_iter].
  erewrite (find_model_miss resp (PDict members) listed final).
  - done.
  - unfold response_json. by rewrite Hjson.
  - cbn [py_get]. by rewrite Hdata.
  - done.
  - done.
  - apply py_eq_refl. rewrite forallb_forall in Hwf. apply Hwf.
    apply list_elem_of_In, last_Some_elem_of, Hfinal.
  - cbn [data]. rewrite normalized_model.
    apply Forall_forall. intros x Hx%list_elem_of_In. split.
    + rewrite forallb_forall in Hdict. by apply Hdict.
    + destruct (has_id (field CONF_MODEL d) x) eqn:E; [|done].
      assert (existsb (has_id (field CONF_MODEL d)) listed = true)
        by (apply existsb_exists; eauto).
      congruence.
Qed.

(** The search looks at the dict only through its [model] field. *)
Lemma find_model_wanted resp models st st' :
  field CONF_MODEL (data st) = field CONF_MODEL (data st') ->
  fst (find_model resp models st) = fst (find_model resp models st').
Proof.
  intros Hw. induction models as [|model rest IH]; [done|].
  cbn [find_model]. cbv [bind lift data_get ret raise]. rewrite Hw.
  destruct (py_get model "id" PNone); [|done].
  destruct (py_eq _ _); [done|].
  destruct (response_json resp); [|done].
  destruct (py_get _ "data" PNone); [|done].
  destruct (py_last _); [|done].
  destruct (py_eq _ _); [done | apply IH].
Qed.

(** Two dicts with the same masked view, hence the same [model], and the
    same answer from the provider: same result and same log. *)
Lemma validate_input_masked_view d d' lg :
  <[CONF_API_KEY := API_KEY_MASK]> d = <[CONF_API_KEY := API_KEY_MASK]> d' ->
  requests_get (models_request d) = requests_get (models_request d') ->
  fst (validate (State d lg)) = fst (validate (State d' lg))
  /\ logger (snd (validate (State d lg))) = logger (snd (validate (State d' lg))).
Proof.
  intros Hview Hreq.
  assert (Hmodel : field CONF_MODEL d = field CONF_MODEL d').
  { apply (f_equal (field CONF_MODEL)) in Hview.
    by rewrite !field_ne in Hview. }
  rewrite !validate_input_unfold. cbv zeta.
  unfold got_trace. rewrite <- Hreq, <- Hview.
  destruct (requests_get (models_request d)) as [resp|e]; [|done].
  destruct (Z.eqb (status_code resp) 401); [done|].
  destruct (Z.eqb (status_code resp) 403); [done|].
  destruct (negb (Z.eqb (status_code resp) 200)); [done|].
  destruct (response_json resp) as [body|e]; [|done].
  destruct (py_get body "data" (PList [])) as [listed|e]; [|done].
  destruct (py_iter listed) as [models|e]; [|done].
  match goal with
  | |- context [find_model resp models (State (normal d') ?l)] =>
      rewrite (find_model_wanted resp models (State (normal d') l)
                 (State (normal d) l))
        by (cbn [data]; by rewrite !normalized_model)
  end.
  by destruct (fst (find_model resp models _)).
Qed.

(** ** The claims about status codes *)

(** C3: when the provider answers the validator's request with status 401,
    [validate_input] raises [InvalidAPIKey], whatever the record holds. *)
Theorem validate_input_status_401 d lg resp :
  requests_get (models_request d) = Return resp ->
  status_code resp = 401 ->
  fst (validate (State d lg)) = Raise InvalidAPIKey.
Proof.
  intros Hreq Hst. rewrite validate_input_unfold, Hreq. cbv zeta.
  by rewrite Hst.
Qed.

(** C4: when the provider answers with status 403, [validate_input] raises
    [UnauthorizedError]. *)
Theorem validate_input_status_403 d lg resp :
  requests_get (models_request d) = Return resp ->
  status_code resp = 403 ->
  fst (validate (State d lg)) = Raise UnauthorizedError.
Proof.
  intros Hreq Hst. rewrite validate_input_unfold, Hreq. cbv zeta.
  by rewrite Hst.
Qed.

(** C5: when the provider answers with a status other than 200, 401 and
    403 (500, say), [validate_input] raises [UnknownError]. *)
Theorem validate_input_status_other d lg resp :
  requests_get (models_request d) = Return resp ->
  status_code resp <> 200 ->
  status_code resp <> 401 ->
  status_code resp <> 403 ->
  fst (validate (State d lg)) = Raise UnknownError.
Proof.
  intros Hreq H200 H401 H403. rewrite validate_input_unfold, Hreq. cbv zeta.
  apply Z.eqb_neq in H200, H401, H403. by rewrite H200, H401, H403.
Qed.

(** ** Transport failures *)

(** C6: when the transport raises a network-level [RequestException]
    (connection refused, timeout, DNS failure), [validate_input] lets that
    very exception through; it is none of the four domain kinds; both flow
    steps catch it and show the form again with
    [errors["base"] = "connection_error"], an [errors] dict that no domain
    kind produces. *)
Theorem transport_failure_is_connection_error d lg k :
  requests_get (models_request d) = Raise (RequestException k) ->
  fst (validate (State d lg)) = Raise (RequestException k)
  /\ is_domain_error (RequestException k) = false
  /\ step_user (Some d) lg =
       (Return (ShowForm "user" None (<["base" := "connection_error"]> ∅)),
        lg ++ [got_trace d; LogRecord ERROR "%s" [ArgExn (RequestException k)]])
  /\ (forall entry,
        fst (step_reconfigure (Some entry) (Some d) lg) =
        Return (ShowForm "reconfigure"
                  (Some (if bool_decide (d = ∅)
                         then entry_data entry else normal d))
                  (<["base" := "connection_error"]> ∅)))
  /\ (forall e st, is_domain_error e = true ->
        fst (except_clauses e st) <>
        Return (<["base" := "connection_error"]> ∅)).
Proof.
  intros Hreq.
  assert (Hrun : validate (State d lg) =
                 (Raise (RequestException k),
                  State (normal d) (lg ++ [got_trace d])))
    by (by rewrite validate_input_unfold, Hreq).
  split; [by rewrite Hrun|]. split; [done|]. split; [|split].
  - cbv [async_step_user try_except bind]. rewrite Hrun.
    cbv [except_clauses bind log ret]. cbn [data logger].
    by rewrite <- app_assoc.
  - intros entry. cbv [async_step_reconfigure try_except bind]. rewrite Hrun.
    cbv [except_clauses bind log ret data_ref]. cbn [data logger fst].
    done.
  - intros e st He Habs.
    destruct e; try discriminate He; cbv [except_clauses bind log ret] in Habs;
      cbn [fst] in Habs;
      apply (f_equal (fun r : result (gmap string string) =>
                        match r with
                        | Return m => m !! "base"
                        | Raise _ => None
                        end)) in Habs;
      by vm_compute in Habs.
Qed.

(** ** What happens to the record *)

(** C7: a record without [temperature] and without [prompt] (read as the
    source reads them: [data.get(...)] is [None]) that validates carries
    [DEFAULT_TEMPERATURE] and [DEFAULT_PROMPT] afterwards. *)
Theorem validate_input_fills_defaults d lg :
  field CONF_TEMPERATURE d = PNone ->
  field CONF_PROMPT d = PNone ->
  fst (validate (State d lg)) = Return tt ->
  data (snd (validate (State d lg))) !! CONF_TEMPERATURE = Some DEFAULT_TEMPERATURE
  /\ data (snd (validate (State d lg))) !! CONF_PROMPT = Some DEFAULT_PROMPT.
Proof.
  intros Ht Hp _. rewrite validate_input_data.
  by rewrite normalized_temperature_absent, normalized_prompt_absent.
Qed.

(** C8: the credential does not reach the logger. Take a record and put any
    two credentials [k1], [k2] in it; if the provider answers both requests
    alike, the two runs of [validate_input] leave the same log. The trace of
    the record is emitted with [api_key] replaced by the mask [<api_key>],
    nothing logged after it shows the record, and at the end, on success as
    on failure, the record's [api_key] is the caller's again. *)
Theorem validate_input_masks_api_key d k1 k2 lg :
  requests_get (models_request (<[CONF_API_KEY := k1]> d)) =
  requests_get (models_request (<[CONF_API_KEY := k2]> d)) ->
  logger (snd (validate (State (<[CONF_API_KEY := k1]> d) lg))) =
  logger (snd (validate (State (<[CONF_API_KEY := k2]> d) lg)))
  /\ (exists rest,
        logger (snd (validate (State (<[CONF_API_KEY := k1]> d) lg))) =
        lg ++ LogRecord DEBUG "User validation got: %s"
                [ArgDict (<[CONF_API_KEY := API_KEY_MASK]> d)] :: rest
        /\ forallb (fun r => negb (shows_dict r)) rest = true)
  /\ data (snd (validate (State (<[CONF_API_KEY := k1]> d) lg))) !! CONF_API_KEY
     = Some k1.
Proof.
  intros Hreq. split; [|split].
  - apply validate_input_masked_view; [|done]. by rewrite !insert_insert_eq.
  - destruct (validate_input_logger (<[CONF_API_KEY := k1]> d) lg)
      as (rest & Hlog & Hrest).
    exists rest. split; [|done]. rewrite Hlog. unfold got_trace.
    by rewrite insert_insert_eq.
  - rewrite validate_input_data, normalized_api_key_lookup.
    unfold field. by rewrite lookup_insert_eq.
Qed.

(** C9: [validate_input] touches nothing but absent defaults. Every key
    other than [api_key], [temperature] and [prompt] keeps its entry, so
    [name] and [model] read as before; [api_key] reads as before, and keeps
    its entry when the record has one; a [temperature] or [prompt] that is
    not [None] keeps its entry, and one that is becomes the default. This
    holds for the record as [validate_input] leaves it, returning or
    raising. *)
Theorem validate_input_frame d lg :
  let d' := data (snd (validate (State d lg))) in
  (forall k, k <> CONF_API_KEY -> k <> CONF_TEMPERATURE -> k <> CONF_PROMPT ->
             d' !! k = d !! k)
  /\ d' !! CONF_NAME = d !! CONF_NAME
  /\ d' !! CONF_MODEL = d !! CONF_MODEL
  /\ field CONF_API_KEY d' = field CONF_API_KEY d
  /\ (is_Some (d !! CONF_API_KEY) -> d' !! CONF_API_KEY = d !! CONF_API_KEY)
  /\ (field CONF_TEMPERATURE d <> PNone ->
      d' !! CONF_TEMPERATURE = d !! CONF_TEMPERATURE)
  /\ (field CONF_PROMPT d <> PNone -> d' !! CONF_PROMPT = d !! CONF_PROMPT)
  /\ (field CONF_TEMPERATURE d = PNone ->
      d' !! CONF_TEMPERATURE = Some DEFAULT_TEMPERATURE)
  /\ (field CONF_PROMPT d = PNone -> d' !! CONF_PROMPT = Some DEFAULT_PROMPT).
Proof.
  cbv zeta. rewrite validate_input_data.
  repeat split.
  - apply normalized_other.
  - by apply normalized_other.
  - by apply normalized_other.
  - apply normalized_api_key.
  - apply normalized_api_key_present.
  - apply normalized_temperature_present.
  - apply normalized_prompt_present.
  - apply normalized_temperature_absent.
  - apply normalized_prompt_absent.
Qed.

(** C10: when [validate_input] raises one of the four domain errors, the
    record has its absent [temperature] and [prompt] set to the defaults all
    the same: the dict it leaves is the normalized one, which is fixed
    before the request is sent and does not depend on the answer. *)
Theorem validate_input_defaults_on_failure d lg e :
  fst (validate (State d lg)) = Raise e ->
  is_domain_error e = true ->
  data (snd (validate (State d lg))) = normal d
  /\ (field CONF_TEMPERATURE d = PNone ->
      data (snd (validate (State d lg))) !! CONF_TEMPERATURE
      = Some DEFAULT_TEMPERATURE)
  /\ (field CONF_PROMPT d = PNone ->
      data (snd (validate (State d lg))) !! CONF_PROMPT = Some DEFAULT_PROMPT).
Proof.
  intros _ _. rewrite validate_input_data. split; [done|]. split.
  - apply normalized_temperature_absent.
  - apply normalized_prompt_absent.
Qed.

(** ** What a normal return tells *)

Lemma is_None_spec v : is_None v = true <-> v = PNone.
Proof. by destruct v. Qed.

Section Soundness.

Variable resp : response.
Variable members : list (string * pyval).
Variable listed : list pyval.
Hypothesis Hjson : response_json resp = Return (PDict members).
Hypothesis Hdata : assoc "data" members = Some (PList listed).

(** Leaving the loop normally from a suffix of the listing whose last
    descriptor equals itself means that a [break] was taken. *)
Lemma find_model_return final models st :
  last listed = Some final ->
  last models = Some final ->
  py_eq final final = true ->
  fst (find_model resp models st) = Return tt ->
  existsb (has_id (field CONF_MODEL (data st))) models = true.
Proof.
  intros Hfinal Hlast Hrefl. induction models as [|m rest IH]; [done|].
  cbn [find_model]. cbv [bind lift data_get ret raise].
  destruct m as [| | | | | |e]; cbn [py_get]; try discriminate.
  cbn [existsb has_id].
  destruct (py_eq (default PNone (assoc "id" e)) _); [done|].
  rewrite Hjson. cbn [py_get]. rewrite Hdata. cbn [default from_option id py_last].
  rewrite Hfinal.
  destruct (py_eq (PDict e) final) eqn:E; [discriminate|].
  intros Hret. cbn [orb]. apply IH; [|done].
  destruct rest as [|y rest]; [|by rewrite last_cons_cons in Hlast].
  rewrite last_singleton in Hlast. injection Hlast as <-. congruence.
Qed.

(** From a suffix of the listing the loop ends in one of three ways, and
    [data[-1]] is always there to be read. *)
Lemma find_model_outcomes pre models st :
  listed = pre ++ models ->
  fst (find_model resp models st) = Return tt
  \/ fst (find_model resp models st) = Raise WhisperModelNotFound
  \/ fst (find_model resp models st) = Raise AttributeError.
Proof.
  revert pre. induction models as [|m rest IH]; intros pre Hsplit; [by left|].
  cbn [find_model]. cbv [bind lift data_get ret raise].
  destruct m as [| | | | | |e]; cbn [py_get]; try (by right; right).
  destruct (py_eq (default PNone (assoc "id" e)) _); [by left|].
  rewrite Hjson. cbn [py_get]. rewrite Hdata. cbn [default from_option id py_last].
  destruct (last listed) as [final|] eqn:Hlast.
  - destruct (py_eq (PDict e) final); [by right; left|].
    apply (IH (pre ++ [PDict e])). by rewrite <- app_assoc.
  - apply last_None in Hlast. rewrite Hlast in Hsplit.
    by destruct pre.
Qed.

End Soundness.

(** X1: the validator is sound on a listing of descriptors. When the
    provider's body holds a non-empty [data] list of well-formed values and
    [validate_input] returns normally, one of the descriptors carries the
    record's [model] as its [id]. *)
Theorem validate_input_sound d lg resp members listed :
  requests_get (models_request d) = Return resp ->
  json resp = Return (PDict members) ->
  assoc "data" members = Some (PList listed) ->
  listed <> [] ->
  forallb wf_pyval listed = true ->
  fst (validate (State d lg)) = Return tt ->
  existsb (has_id (field CONF_MODEL d)) listed = true.
Proof.
  intros Hreq Hjson Hdata Hne Hwf.
  destruct (proj2 (last_is_Some listed) Hne) as [final Hfinal].
  rewrite validate_input_unfold, Hreq. cbv zeta.
  destruct (Z.eqb (status_code resp) 401); [discriminate|].
  destruct (Z.eqb (status_code resp) 403); [discriminate|].
  destruct (negb (Z.eqb (status_code resp) 200)); [discriminate|].
  unfold response_json. rewrite Hjson. cbn [py_get]. rewrite Hdata.
  cbn [default from_option id py_iter].
  destruct (fst (find_model resp listed _)) as [[]|e] eqn:Hrun; [|discriminate].
  intros _.
  apply (find_model_return resp members listed Hjson Hdata final) in Hrun;
    try done.
  - cbn [data] in Hrun. by rewrite normalized_model in Hrun.
  - apply py_eq_refl. rewrite forallb_forall in Hwf. apply Hwf.
    apply list_elem_of_In, last_Some_elem_of, Hfinal.
Qed.

(** X2: [validate_input] returns normally only when the request was
    answered, with status 200 and a body that decodes to a JSON object. *)
Theorem validate_input_success_only_on_200 d lg :
  fst (validate (State d lg)) = Return tt ->
  exists resp members,
    requests_get (models_request d) = Return resp
    /\ status_code resp = 200
    /\ json resp = Return (PDict members).
Proof.
  rewrite validate_input_unfold. cbv zeta.
  destruct (requests_get (models_request d)) as [resp|e]; [|discriminate].
  destruct (Z.eqb (status_code resp) 401); [discriminate|].
  destruct (Z.eqb (status_code resp) 403); [discriminate|].
  destruct (Z.eqb (status_code resp) 200) eqn:E200; [|discriminate].
  apply Z.eqb_eq in E200. cbn [negb]. unfold response_json.
  destruct (json resp) as [body|e] eqn:Hjson; [|discriminate].
  destruct body as [| | | | | |members]; cbn [py_get]; try discriminate.
  intros _. by exists resp, members.
Qed.

(** X3: on a status-200 answer whose body decodes, [validate_input] ends in
    one of four ways: normal return, [WhisperModelNotFound],
    [AttributeError] (a body or an entry without [get]) or [TypeError] (a
    [data] that cannot be iterated). Reading [data[-1]] never fails, and
    none of the status errors is raised. *)
Theorem validate_input_outcomes_on_200 d lg resp body :
  requests_get (models_request d) = Return resp ->
  status_code resp = 200 ->
  json resp = Return body ->
  fst (validate (State d lg)) = Return tt
  \/ fst (validate (State d lg)) = Raise WhisperModelNotFound
  \/ fst (validate (State d lg)) = Raise AttributeError
  \/ fst (validate (State d lg)) = Raise TypeError.
Proof.
  intros Hreq Hst Hjson.
  rewrite validate_input_unfold, Hreq. cbv zeta. rewrite Hst.
  cbn [Z.eqb Pos.eqb negb]. unfold response_json. rewrite Hjson.
  destruct body as [| | | | | |members]; cbn [py_get];
    try (by right; right; left).
  destruct (assoc "data" members) as [v|] eqn:Hdata;
    cbn [default from_option id]; [|by left].
  destruct v as [| | | |s|listed|items]; cbn [py_iter];
    try (by right; right; right).
  - destruct (list_ascii_of_string s) as [|c cs]; [by left|].
    by right; right; left.
  - match goal with
    | |- context [find_model resp listed ?st] =>
        destruct (find_model_outcomes resp members listed
                    Hjson Hdata [] listed st eq_refl) as [H|[H|H]]
    end; rewrite H; tauto.
  - destruct items as [|[k v] items]; [by left|].
    by right; right; left.
Qed.

(** ** Malformed bodies *)

(** X4: a listing whose first entry is not a JSON object makes
    [validate_input] raise [AttributeError], whatever comes after it, the
    wanted model included. *)
Theorem validate_input_entry_not_a_dict d lg resp members m rest :
  requests_get (models_request d) = Return resp ->
  status_code resp = 200 ->
  json resp = Return (PDict members) ->
  assoc "data" members = Some (PList (m :: rest)) ->
  is_dict m = false ->
  fst (validate (State d lg)) = Raise AttributeError.
Proof.
  intros Hreq Hst Hjson Hdata Hm.
  rewrite validate_input_unfold, Hreq. cbv zeta. rewrite Hst.
  cbn [Z.eqb Pos.eqb negb]. unfold response_json. rewrite Hjson.
  cbn [py_get]. rewrite Hdata. cbn [default from_option id py_iter find_model].
  cbv [bind lift]. by destruct m.
Qed.

(** X5: a [data] member that is present but holds [null], a number or a
    boolean cannot be iterated: [validate_input] raises [TypeError]; only a
    missing member is read as the empty list. *)
Theorem validate_input_data_not_iterable d lg resp members v :
  requests_get (models_request d) = Return resp ->
  status_code resp = 200 ->
  json resp = Return (PDict members) ->
  assoc "data" members = Some v ->
  py_iter v = Raise TypeError ->
  fst (validate (State d lg)) = Raise TypeError.
Proof.
  intros Hreq Hst Hjson Hdata Hv.
  rewrite validate_input_unfold, Hreq. cbv zeta. rewrite Hst.
  cbn [Z.eqb Pos.eqb negb]. unfold response_json. rewrite Hjson.
  cbn [py_get]. rewrite Hdata. cbn [default from_option id]. by rewrite Hv.
Qed.

(** X6: a record without [model] matches a descriptor without [id]: both
    sides of the comparison read [None], and [validate_input] returns
    normally on the first such descriptor. *)
Theorem validate_input_missing_model_matches_missing_id
    d lg resp members e rest :
  requests_get (models_request d) = Return resp ->
  status_code resp = 200 ->
  json resp = Return (PDict members) ->
  assoc "data" members = Some (PList (PDict e :: rest)) ->
  d !! CONF_MODEL = None ->
  assoc "id" e = None ->
  fst (validate (State d lg)) = Return tt.
Proof.
  intros Hreq Hst Hjson Hdata Hmodel Hid.
  rewrite validate_input_unfold, Hreq. cbv zeta. rewrite Hst.
  cbn [Z.eqb Pos.eqb negb]. unfold response_json. rewrite Hjson.
  cbn [py_get]. rewrite Hdata. cbn [default from_option id py_iter find_model].
  cbv [bind lift data_get ret]. cbn [py_get data]. rewrite Hid.
  rewrite normalized_model. unfold field. rewrite Hmodel. done.
Qed.

(** ** Running the validator again *)

Lemma normalized_idempotent d : normal (normal d) = normal d.
Proof.
  apply map_eq. intros k.
  destruct (String.eqb k CONF_API_KEY) eqn:Ea;
    [apply String.eqb_eq in Ea; subst k|apply String.eqb_neq in Ea].
  { by rewrite !normalized_api_key_lookup, normalized_api_key. }
  destruct (String.eqb k CONF_TEMPERATURE) eqn:Et;
    [apply String.eqb_eq in Et; subst k|apply String.eqb_neq in Et].
  { destruct (is_None (field CONF_TEMPERATURE (normal d))) eqn:E.
    - apply is_None_spec in E. rewrite normalized_temperature_absent by done.
      unfold field in E.
      destruct (is_None (field CONF_TEMPERATURE d)) eqn:E'.
      + apply is_None_spec in E'. by rewrite normalized_temperature_absent.
      + rewrite normalized_temperature_present in E
          by (intros H; rewrite H in E'; discriminate).
        fold (field CONF_TEMPERATURE d) in E. rewrite E in E'. discriminate.
    - apply normalized_temperature_present.
      intros H. rewrite H in E. discriminate. }
  destruct (String.eqb k CONF_PROMPT) eqn:Ep;
    [apply String.eqb_eq in Ep; subst k|apply String.eqb_neq in Ep].
  { destruct (is_None (field CONF_PROMPT (normal d))) eqn:E.
    - apply is_None_spec in E. rewrite normalized_prompt_absent by done.
      unfold field in E.
      destruct (is_None (field CONF_PROMPT d)) eqn:E'.
      + apply is_None_spec in E'. by rewrite normalized_prompt_absent.
      + rewrite normalized_prompt_present in E
          by (intros H; rewrite H in E'; discriminate).
        fold (field CONF_PROMPT d) in E. rewrite E in E'. discriminate.
    - apply normalized_prompt_present.
      intros H. rewrite H in E. discriminate. }
  by rewrite normalized_other.
Qed.

(** Two dicts that send the same request and name the same model get the
    same result. *)
Lemma validate_input_result_eq d d' lg lg' :
  models_request d = models_request d' ->
  field CONF_MODEL d = field CONF_MODEL d' ->
  fst (validate (State d lg)) = fst (validate (State d' lg')).
Proof.
  intros Hreq Hmodel. rewrite !validate_input_unfold. cbv zeta. rewrite <- Hreq.
  destruct (requests_get (models_request d)) as [resp|e]; [|done].
  destruct (Z.eqb (status_code resp) 401); [done|].
  destruct (Z.eqb (status_code resp) 403); [done|].
  destruct (negb (Z.eqb (status_code resp) 200)); [done|].
  destruct (response_json resp) as [body|e]; [|done].
  destruct (py_get body "data" (PList [])) as [listed|e]; [|done].
  destruct (py_iter listed) as [models|e]; [|done].
  match goal with
  | |- context [find_model resp models (State (normal d') ?l)] =>
      match goal with
      | |- context [find_model resp models (State (normal d) ?l0)] =>
          rewrite (find_model_wanted resp models (State (normal d') l)
                     (State (normal d) l0))
            by (cbn [data]; by rewrite !normalized_model)
      end
  end.
  by destruct (fst (find_model resp models _)).
Qed.

(** X7: validating again the dict a first run has left (a user
    re-submitting the form) gives the same result as the first run and
    leaves the dict as it is: the defaults are filled once. *)
Theorem validate_input_idempotent d lg lg' :
  let rerun :=
    validate_input DEFAULT_TEMPERATURE DEFAULT_PROMPT requests_get
      (State (data (snd (validate (State d lg)))) lg') in
  fst rerun = fst (validate (State d lg))
  /\ data (snd rerun) = data (snd (validate (State d lg))).
Proof.
  cbv zeta. rewrite !validate_input_data. split.
  - apply validate_input_result_eq.
    + unfold models_request. by rewrite normalized_api_key.
    + apply normalized_model.
  - apply normalized_idempotent.
Qed.

(** ** The log *)

(** X8: [validate_input] only appends to the log, at most three records,
    and the record [User validation successful] is among them exactly
    when it returns normally. *)
Theorem validate_input_log_shape d lg :
  exists appended,
    logger (snd (validate (State d lg))) = lg ++ appended
    /\ (length appended <= 3)%nat
    /\ (fst (validate (State d lg)) = Return tt <-> In success_trace appended).
Proof.
  rewrite validate_input_unfold. cbv zeta.
  assert (Hno : forall resp, ~ In success_trace [got_trace d; request_trace resp])
    by (intros resp [H|[H|[]]]; discriminate H).
  destruct (requests_get (models_request d)) as [resp|e].
  2:{ exists [got_trace d]. cbn [fst snd logger length]. split; [done|].
      split; [lia|]. split; [discriminate|]. intros [H|[]]. discriminate H. }
  assert (Hfail : forall e : exn,
    exists appended,
      logger (snd (Raise e : result unit,
                   State (normal d)
                         ((lg ++ [got_trace d]) ++ [request_trace resp])))
      = lg ++ appended
      /\ (length appended <= 3)%nat
      /\ (fst (Raise e : result unit,
               State (normal d)
                     ((lg ++ [got_trace d]) ++ [request_trace resp]))
          = Return tt <-> In success_trace appended)).
  { intros e. exists [got_trace d; request_trace resp].
    cbn [fst snd logger length]. split; [by rewrite <- app_assoc|].
    split; [lia|]. split; [discriminate|]. intros H. by apply Hno in H. }
  destruct (Z.eqb (status_code resp) 401); [apply Hfail|].
  destruct (Z.eqb (status_code resp) 403); [apply Hfail|].
  destruct (negb (Z.eqb (status_code resp) 200)); [apply Hfail|].
  destruct (response_json resp) as [body|e]; [|apply Hfail].
  destruct (py_get body "data" (PList [])) as [listed|e]; [|apply Hfail].
  destruct (py_iter listed) as [models|e]; [|apply Hfail].
  destruct (fst (find_model resp models _)) as [[]|e]; [|apply Hfail].
  exists [got_trace d; request_trace resp; success_trace].
  cbn [fst snd logger length]. split; [by rewrite <- !app_assoc|].
  split; [lia|]. split; [intros _; cbn; tauto | done].
Qed.

(** ** The flow steps *)

(** The clauses write to the log and leave the dict alone. *)
Lemma except_clauses_data e st :
  data (snd (except_clauses e st)) = data st.
Proof. by destruct e. Qed.


(** [async_step_user] on a submitted dict, read off the validator's run. *)
Lemma async_step_user_unfold d lg :
  step_user (Some d) lg =
  match fst (validate (State d lg)) with
  | Return _ =>
      (Return (CreateEntry (default DEFAULT_NAME (d !! CONF_NAME)) (normal d)),
       logger (snd (validate (State d lg))))
  | Raise e =>
      match except_clauses e (snd (validate (State d lg))) with
      | (Return errors, st) => (Return (ShowForm "user" None errors), logger st)
      | (Raise e', st) => (Raise e', logger st)
      end
  end.
Proof.
  pose proof (validate_input_data d lg) as Hdata.
  cbv [async_step_user try_except bind data_ref ret].
  destruct (validate (State d lg)) as [[[]|e] st]; cbn [fst snd] in *.
  - rewrite Hdata. by rewrite normalized_other.
  - by destruct (except_clauses e st) as [[errors|e'] st'].
Qed.

(** [async_step_reconfigure] on an existing entry and a submitted dict. *)
Lemma async_step_reconfigure_unfold entry d lg :
  step_reconfigure (Some entry) (Some d) lg =
  match fst (validate (State d lg)) with
  | Return _ =>
      (Return (UpdateReloadAndAbort entry
                 (default DEFAULT_NAME (d !! CONF_NAME)) (unique_id entry)
                 (normal d) "reconfigure_successful"),
       logger (snd (validate (State d lg))))
  | Raise e =>
      match except_clauses e (snd (validate (State d lg))) with
      | (Return errors, st) =>
          (Return (ShowForm "reconfigure"
                     (Some (if bool_decide (d = ∅)
                            then entry_data entry else normal d))
                     errors),
           logger st)
      | (Raise e', st) => (Raise e', logger st)
      end
  end.
Proof.
  pose proof (validate_input_data d lg) as Hdata.
  cbv [async_step_reconfigure try_except bind data_ref ret].
  destruct (validate (State d lg)) as [[[]|e] st]; cbn [fst snd] in *.
  - rewrite Hdata. by rewrite normalized_other.
  - pose proof (except_clauses_data e st) as Hsame.
    destruct (except_clauses e st) as [[errors|e'] st']; cbn [snd] in Hsame;
      [|done].
    by rewrite Hsame, Hdata.
Qed.

(** X9: when the validation succeeds, [async_step_user] creates the entry
    from the dict as [validate_input] left it: the title is the submitted
    [name], or [DEFAULT_NAME] without one; the stored [api_key] is the
    submitted credential, not the mask; nothing is logged beyond the
    validator's records. *)
Theorem async_step_user_creates_entry d lg :
  fst (validate (State d lg)) = Return tt ->
  step_user (Some d) lg
  = (Return (CreateEntry (default DEFAULT_NAME (d !! CONF_NAME)) (normal d)),
     logger (snd (validate (State d lg))))
  /\ normal d !! CONF_API_KEY = Some (field CONF_API_KEY d).
Proof.
  intros Hok. rewrite async_step_user_unfold, Hok.
  split; [done | apply normalized_api_key_lookup].
Qed.

(** X10: when the validation raises, neither step hands a record to the
    platform: [async_step_user] does not create an entry and
    [async_step_reconfigure] does not update one. *)
Theorem failed_validation_persists_nothing d lg e :
  fst (validate (State d lg)) = Raise e ->
  (forall title new_data,
     fst (async_step_user DEFAULT_TEMPERATURE DEFAULT_PROMPT DEFAULT_NAME
            requests_get (Some d) lg)
     <> Return (CreateEntry title new_data))
  /\ (forall entry entry' title uid new_data why,
        fst (async_step_reconfigure DEFAULT_TEMPERATURE DEFAULT_PROMPT
               DEFAULT_NAME requests_get (Some entry) (Some d) lg)
        <> Return (UpdateReloadAndAbort entry' title uid new_data why)).
Proof.
  intros Hfail. split.
  - intros title new_data. rewrite async_step_user_unfold, Hfail.
    by destruct (except_clauses e _) as [[errors|e'] st].
  - intros entry entry' title uid new_data why.
    rewrite async_step_reconfigure_unfold, Hfail.
    by destruct (except_clauses e _) as [[errors|e'] st].
Qed.

(** X11: a status other than 200 brings the user form back with one error:
    [invalid_api_key] on the [api_key] field for 401, [unauthorized] on
    [base] for 403, [unknown] on [base] for every other status. *)
Theorem async_step_user_status_errors d lg resp :
  requests_get (models_request d) = Return resp ->
  status_code resp <> 200 ->
  fst (step_user (Some d) lg)
  = Return (ShowForm "user" None
              (if Z.eqb (status_code resp) 401
               then <[CONF_API_KEY := "invalid_api_key"]> ∅
               else if Z.eqb (status_code resp) 403
                    then <["base" := "unauthorized"]> ∅
                    else <["base" := "unknown"]> ∅)).
Proof.
  intros Hreq H200. rewrite async_step_user_unfold, validate_input_unfold, Hreq.
  cbv zeta. apply Z.eqb_neq in H200. rewrite H200. cbn [negb].
  destruct (Z.eqb (status_code resp) 401); [done|].
  by destruct (Z.eqb (status_code resp) 403).
Qed.

(** X12: a status-200 listing of well-formed descriptors, at least one,
    none of which has the record's [model] as [id], brings the user form
    back with [errors["base"] = "whisper_model_not_found"]. *)
Theorem async_step_user_model_not_listed d lg resp members listed :
  requests_get (models_request d) = Return resp ->
  status_code resp = 200 ->
  json resp = Return (PDict members) ->
  assoc "data" members = Some (PList listed) ->
  listed <> [] ->
  forallb is_dict listed = true ->
  forallb wf_pyval listed = true ->
  existsb (has_id (field CONF_MODEL d)) listed = false ->
  fst (step_user (Some d) lg)
  = Return (ShowForm "user" None (<["base" := "whisper_model_not_found"]> ∅)).
Proof.
  intros Hreq Hst Hjson Hdata Hne Hdict Hwf Hnone.
  rewrite async_step_user_unfold.
  by rewrite (validate_input_not_listed d lg resp members listed).
Qed.

(** X13: an exception of [validate_input] that no [except] clause names
    ([AttributeError] or [TypeError] from a malformed body, say) leaves both
    steps as it is: no form is shown and nothing more is logged. *)
Theorem unhandled_exception_escapes_flow d lg e :
  fst (validate (State d lg)) = Raise e ->
  is_handled e = false ->
  step_user (Some d) lg = (Raise e, logger (snd (validate (State d lg))))
  /\ (forall entry,
        step_reconfigure (Some entry) (Some d) lg
        = (Raise e, logger (snd (validate (State d lg))))).
Proof.
  intros Hfail Hun. split; [|intros entry].
  - rewrite async_step_user_unfold, Hfail. by destruct e.
  - rewrite async_step_reconfigure_unfold, Hfail. by destruct e.
Qed.

(** X14: the [except] clauses tell the kinds apart: two exceptions that
    leave the same [errors] dict are the same kind, or are both
    [RequestException]s. *)
Theorem except_clauses_distinguish e1 e2 st1 st2 errors :
  fst (except_clauses e1 st1) = Return errors ->
  fst (except_clauses e2 st2) = Return errors ->
  e1 = e2 \/ (exists k1 k2, e1 = RequestException k1 /\ e2 = RequestException k2).
Proof.
  intros H1 H2. rewrite <- H2 in H1. clear H2.
  assert (Hkeys :
    match fst (except_clauses e1 st1) with
    | Return m => (m !! "base", m !! CONF_API_KEY)
    | Raise _ => (None, None)
    end =
    match fst (except_clauses e2 st2) with
    | Return m => (m !! "base", m !! CONF_API_KEY)
    | Raise _ => (None, None)
    end) by (by rewrite H1).
  destruct e1, e2; try (by left); try (by right; eauto);
    try discriminate H1; by vm_compute in Hkeys.
Qed.


(** X16: when the validation succeeds, [async_step_reconfigure] updates the
    entry it was given, under the entry's own [unique_id], with the dict as
    [validate_input] left it and the reason [reconfigure_successful]. *)
Theorem async_step_reconfigure_updates_entry entry d lg :
  fst (validate (State d lg)) = Return tt ->
  step_reconfigure (Some entry) (Some d) lg
  = (Return (UpdateReloadAndAbort entry
               (default DEFAULT_NAME (d !! CONF_NAME)) (unique_id entry)
               (normal d) "reconfigure_successful"),
     logger (snd (validate (State d lg)))).
Proof.
  intros Hok. by rewrite async_step_reconfigure_unfold, Hok.
Qed.

(** X17: when the validation raises an exception a clause names,
    [async_step_reconfigure] shows its form again, and the values it
    suggests are the submitted dict as [validate_input] left it, with the
    credential restored and the defaults filled in; only an empty
    submission falls back to the data of the entry. *)
Theorem async_step_reconfigure_suggests_submission entry d lg e :
  fst (validate (State d lg)) = Raise e ->
  is_handled e = true ->
  exists errors,
    fst (step_reconfigure (Some entry) (Some d) lg)
    = Return (ShowForm "reconfigure"
                (Some (if bool_decide (d = ∅)
                       then entry_data entry else normal d))
                errors)
    /\ fst (except_clauses e (snd (validate (State d lg)))) = Return errors.
Proof.
  intros Hfail Hh. rewrite async_step_reconfigure_unfold, Hfail.
  destruct e; try discriminate Hh; eexists; split; reflexivity.
Qed.

End Validator.

(** ** The one request *)

(** X18: [validate_input] consults the transport for one request only, the
    one to the model listing that carries the record's own [api_key] as
    bearer: two transports that agree on it give the same run. *)
Theorem validate_input_one_request
    (DEFAULT_TEMPERATURE DEFAULT_PROMPT : pyval)
    (get1 get2 : request -> result response) d lg :
  get1 (models_request d) = get2 (models_request d) ->
  validate_input DEFAULT_TEMPERATURE DEFAULT_PROMPT get1 (State d lg)
  = validate_input DEFAULT_TEMPERATURE DEFAULT_PROMPT get2 (State d lg).
Proof.
  intros Hsame. rewrite !validate_input_unfold, Hsame. cbv zeta.
  destruct (get2 (models_request d)) as [resp|e]; [|done].
  destruct (Z.eqb (status_code resp) 401); [done|].
  destruct (Z.eqb (status_code resp) 403); [done|].
  destruct (negb (Z.eqb (status_code resp) 200)); [done|].
  done.
Qed.

(** * Concrete runs *)

(** The two scenarios of the spec. *)
Example scenario_listed :
  fst (validate_input sample_temperature sample_prompt
         (answer 200 (listing ["whisper-large-v3"]))
         (State sample_record [])) = Return tt.
Proof. reflexivity. Qed.

Example scenario_other_model :
  fst (validate_input sample_temperature sample_prompt
         (answer 200 (listing ["other-model"]))
         (State sample_record [])) = Raise WhisperModelNotFound.
Proof. reflexivity. Qed.

(** C1: with status 200 and a [data] list that is empty, or no [data] at
    all, the loop body never runs and [validate_input] returns normally
    instead of raising [WhisperModelNotFound]; this for every record. *)
Theorem validate_input_empty_listing_passes
    (DEFAULT_TEMPERATURE DEFAULT_PROMPT : pyval)
    (d : gmap string pyval) (lg : list log_record) :
  fst (validate_input DEFAULT_TEMPERATURE DEFAULT_PROMPT
         (answer 200 (listing [])) (State d lg)) = Return tt
  /\ fst (validate_input DEFAULT_TEMPERATURE DEFAULT_PROMPT
            (answer 200 (Return (PDict []))) (State d lg)) = Return tt.
Proof. by rewrite !validate_input_unfold. Qed.

(** C2: with status 200 and the wanted model second in a listing whose
    first and last descriptors are equal, [validate_input] raises
    [WhisperModelNotFound] on the first descriptor, although the model is
    listed. *)
Theorem validate_input_duplicate_hides_model
    (DEFAULT_TEMPERATURE DEFAULT_PROMPT : pyval) (lg : list log_record) :
  existsb (has_id (field CONF_MODEL sample_record))
          [PDict [("id", PStr "distil-whisper-large-v3-en")];
           PDict [("id", PStr "whisper-large-v3")];
           PDict [("id", PStr "distil-whisper-large-v3-en")]] = true
  /\ fst (validate_input DEFAULT_TEMPERATURE DEFAULT_PROMPT
            (answer 200 (listing ["distil-whisper-large-v3-en";
                                  "whisper-large-v3";
                                  "distil-whisper-large-v3-en"]))
            (State sample_record lg)) = Raise WhisperModelNotFound.
Proof.
  split; [reflexivity|].
  rewrite validate_input_unfold. reflexivity.
Qed.

(** ** Instances of the theorems above *)

Lemma validate_input_status_401_witness :
  answer 401 no_body (models_request sample_record)
  = Return (Response 401 (PStr "") 0 no_body)
  /\ status_code (Response 401 (PStr "") 0 no_body) = 401
  /\ fst (validate_input sample_temperature sample_prompt (answer 401 no_body)
            (State sample_record [])) = Raise InvalidAPIKey.
Proof.
  split; [reflexivity|]. split; [reflexivity|].
  apply (validate_input_status_401 sample_temperature sample_prompt
           (answer 401 no_body) sample_record [] (Response 401 (PStr "") 0 no_body));
    reflexivity.
Defined.

Lemma validate_input_status_403_witness :
  answer 403 no_body (models_request sample_record)
  = Return (Response 403 (PStr "") 0 no_body)
  /\ status_code (Response 403 (PStr "") 0 no_body) = 403
  /\ fst (validate_input sample_temperature sample_prompt (answer 403 no_body)
            (State sample_record [])) = Raise UnauthorizedError.
Proof.
  split; [reflexivity|]. split; [reflexivity|].
  apply (validate_input_status_403 sample_temperature sample_prompt
           (answer 403 no_body) sample_record [] (Response 403 (PStr "") 0 no_body));
    reflexivity.
Defined.

Lemma validate_input_status_other_witness :
  answer 500 no_body (models_request sample_record)
  = Return (Response 500 (PStr "") 0 no_body)
  /\ status_code (Response 500 (PStr "") 0 no_body) <> 200
  /\ status_code (Response 500 (PStr "") 0 no_body) <> 401
  /\ status_code (Response 500 (PStr "") 0 no_body) <> 403
  /\ fst (validate_input sample_temperature sample_prompt (answer 500 no_body)
            (State sample_record [])) = Raise UnknownError.
Proof.
  split; [reflexivity|]. do 3 (split; [discriminate|]).
  apply (validate_input_status_other sample_temperature sample_prompt
           (answer 500 no_body) sample_record [] (Response 500 (PStr "") 0 no_body));
    [reflexivity | discriminate | discriminate | discriminate].
Defined.

Lemma transport_failure_is_connection_error_witness :
  unreachable ConnectionError (models_request sample_record)
  = Raise (RequestException ConnectionError)
  /\ fst (validate_input sample_temperature sample_prompt
            (unreachable ConnectionError) (State sample_record []))
     = Raise (RequestException ConnectionError)
  /\ is_domain_error (RequestException ConnectionError) = false
  /\ async_step_user sample_temperature sample_prompt sample_name
       (unreachable ConnectionError) (Some sample_record) []
     = (Return (ShowForm "user" None (<["base" := "connection_error"]> ∅)),
        [] ++ [got_trace sample_record;
               LogRecord ERROR "%s" [ArgExn (RequestException ConnectionError)]])
  /\ (forall entry,
        fst (async_step_reconfigure sample_temperature sample_prompt sample_name
               (unreachable ConnectionError) (Some entry) (Some sample_record) [])
        = Return (ShowForm "reconfigure"
                    (Some (if bool_decide (sample_record = ∅)
                           then entry_data entry
                           else normalized sample_temperature sample_prompt
                                           sample_record))
                    (<["base" := "connection_error"]> ∅)))
  /\ (forall e st, is_domain_error e = true ->
        fst (except_clauses e st) <>
        Return (<["base" := "connection_error"]> ∅)).
Proof.
  split; [reflexivity|].
  apply (transport_failure_is_connection_error
           sample_temperature sample_prompt sample_name
           (unreachable ConnectionError) sample_record [] ConnectionError).
  reflexivity.
Defined.

Lemma validate_input_fills_defaults_witness :
  field CONF_TEMPERATURE sample_record = PNone
  /\ field CONF_PROMPT sample_record = PNone
  /\ fst (validate_input sample_temperature sample_prompt
            (answer 200 (listing ["whisper-large-v3"]))
            (State sample_record [])) = Return tt
  /\ data (snd (validate_input sample_temperature sample_prompt
                  (answer 200 (listing ["whisper-large-v3"]))
                  (State sample_record []))) !! CONF_TEMPERATURE
     = Some sample_temperature
  /\ data (snd (validate_input sample_temperature sample_prompt
                  (answer 200 (listing ["whisper-large-v3"]))
                  (State sample_record []))) !! CONF_PROMPT
     = Some sample_prompt.
Proof.
  split; [reflexivity|]. split; [reflexivity|]. split; [reflexivity|].
  apply (validate_input_fills_defaults sample_temperature sample_prompt
           (answer 200 (listing ["whisper-large-v3"])) sample_record []);
    reflexivity.
Defined.

Lemma validate_input_masks_api_key_witness :
  answer 401 no_body (models_request (<[CONF_API_KEY := PStr "sk-abc"]> sample_record))
  = answer 401 no_body (models_request (<[CONF_API_KEY := PStr "sk-xyz"]> sample_record))
  /\ (logger (snd (validate_input sample_temperature sample_prompt (answer 401 no_body)
                     (State (<[CONF_API_KEY := PStr "sk-abc"]> sample_record) [])))
      = logger (snd (validate_input sample_temperature sample_prompt (answer 401 no_body)
                       (State (<[CONF_API_KEY := PStr "sk-xyz"]> sample_record) [])))
      /\ (exists rest,
            logger (snd (validate_input sample_temperature sample_prompt
                           (answer 401 no_body)
                           (State (<[CONF_API_KEY := PStr "sk-abc"]> sample_record) [])))
            = [] ++ LogRecord DEBUG "User validation got: %s"
                      [ArgDict (<[CONF_API_KEY := API_KEY_MASK]> sample_record)]
                    :: rest
            /\ forallb (fun r => negb (shows_dict r)) rest = true)
      /\ data (snd (validate_input sample_temperature sample_prompt
                      (answer 401 no_body)
                      (State (<[CONF_API_KEY := PStr "sk-abc"]> sample_record) [])))
           !! CONF_API_KEY
         = Some (PStr "sk-abc")).
Proof.
  split; [reflexivity|].
  apply (validate_input_masks_api_key sample_temperature sample_prompt
           (answer 401 no_body) sample_record (PStr "sk-abc") (PStr "sk-xyz") []).
  reflexivity.
Defined.

Lemma validate_input_defaults_on_failure_witness :
  fst (validate_input sample_temperature sample_prompt
         (answer 200 (listing ["other-model"])) (State sample_record []))
  = Raise WhisperModelNotFound
  /\ is_domain_error WhisperModelNotFound = true
  /\ (data (snd (validate_input sample_temperature sample_prompt
                   (answer 200 (listing ["other-model"]))
                   (State sample_record [])))
      = normalized sample_temperature sample_prompt sample_record
      /\ (field CONF_TEMPERATURE sample_record = PNone ->
          data (snd (validate_input sample_temperature sample_prompt
                       (answer 200 (listing ["other-model"]))
                       (State sample_record []))) !! CONF_TEMPERATURE
          = Some sample_temperature)
      /\ (field CONF_PROMPT sample_record = PNone ->
          data (snd (validate_input sample_temperature sample_prompt
                       (answer 200 (listing ["other-model"]))
                       (State sample_record []))) !! CONF_PROMPT
          = Some sample_prompt)).
Proof.
  split; [reflexivity|]. split; [reflexivity|].
  apply (validate_input_defaults_on_failure sample_temperature sample_prompt
           (answer 200 (listing ["other-model"])) sample_record []
           WhisperModelNotFound); reflexivity.
Defined.

(** ** Instances of the further properties *)

Lemma validate_input_sound_witness :
  answer 200 (listing ["other-model"; "whisper-large-v3"])
         (models_request sample_record)
  = Return (reply 200 (listing ["other-model"; "whisper-large-v3"]))
  /\ json (reply 200 (listing ["other-model"; "whisper-large-v3"]))
     = Return (PDict [("data", PList (descriptors ["other-model"; "whisper-large-v3"]))])
  /\ assoc "data" [("data", PList (descriptors ["other-model"; "whisper-large-v3"]))]
     = Some (PList (descriptors ["other-model"; "whisper-large-v3"]))
  /\ descriptors ["other-model"; "whisper-large-v3"] <> []
  /\ forallb wf_pyval (descriptors ["other-model"; "whisper-large-v3"]) = true
  /\ fst (validate_input sample_temperature sample_prompt
            (answer 200 (listing ["other-model"; "whisper-large-v3"]))
            (State sample_record [])) = Return tt
  /\ existsb (has_id (field CONF_MODEL sample_record))
             (descriptors ["other-model"; "whisper-large-v3"]) = true.
Proof.
  do 3 (split; [reflexivity|]). split; [discriminate|].
  do 2 (split; [reflexivity|]).
  apply (validate_input_sound sample_temperature sample_prompt
           (answer 200 (listing ["other-model"; "whisper-large-v3"]))
           sample_record []
           (reply 200 (listing ["other-model"; "whisper-large-v3"]))
           [("data", PList (descriptors ["other-model"; "whisper-large-v3"]))]
           (descriptors ["other-model"; "whisper-large-v3"]));
    first [reflexivity | discriminate].
Defined.

Lemma validate_input_success_only_on_200_witness :
  fst (validate_input sample_temperature sample_prompt
         (answer 200 (listing ["whisper-large-v3"])) (State sample_record []))
  = Return tt
  /\ exists resp members,
       answer 200 (listing ["whisper-large-v3"]) (models_request sample_record)
       = Return resp
       /\ status_code resp = 200
       /\ json resp = Return (PDict members).
Proof.
  split; [reflexivity|].
  apply (validate_input_success_only_on_200 sample_temperature sample_prompt
           (answer 200 (listing ["whisper-large-v3"])) sample_record []).
  reflexivity.
Defined.

Lemma validate_input_outcomes_on_200_witness :
  answer 200 (listing ["other-model"]) (models_request sample_record)
  = Return (reply 200 (listing ["other-model"]))
  /\ status_code (reply 200 (listing ["other-model"])) = 200
  /\ json (reply 200 (listing ["other-model"]))
     = Return (PDict [("data", PList (descriptors ["other-model"]))])
  /\ (fst (validate_input sample_temperature sample_prompt
             (answer 200 (listing ["other-model"])) (State sample_record []))
      = Return tt
      \/ fst (validate_input sample_temperature sample_prompt
                (answer 200 (listing ["other-model"])) (State sample_record []))
         = Raise WhisperModelNotFound
      \/ fst (validate_input sample_temperature sample_prompt
                (answer 200 (listing ["other-model"])) (State sample_record []))
         = Raise AttributeError
      \/ fst (validate_input sample_temperature sample_prompt
                (answer 200 (listing ["other-model"])) (State sample_record []))
         = Raise TypeError).
Proof.
  do 3 (split; [reflexivity|]).
  apply (validate_input_outcomes_on_200 sample_temperature sample_prompt
           (answer 200 (listing ["other-model"])) sample_record []
           (reply 200 (listing ["other-model"]))
           (PDict [("data", PList (descriptors ["other-model"]))]));
    reflexivity.
Defined.

Lemma validate_input_entry_not_a_dict_witness :
  answer 200 (body_with_data (PList (PStr "whisper-large-v3"
                                       :: descriptors ["whisper-large-v3"])))
         (models_request sample_record)
  = Return (reply 200 (body_with_data
                         (PList (PStr "whisper-large-v3"
                                   :: descriptors ["whisper-large-v3"]))))
  /\ status_code (reply 200 (body_with_data
                               (PList (PStr "whisper-large-v3"
                                         :: descriptors ["whisper-large-v3"]))))
     = 200
  /\ json (reply 200 (body_with_data
                        (PList (PStr "whisper-large-v3"
                                  :: descriptors ["whisper-large-v3"]))))
     = Return (PDict [("data", PList (PStr "whisper-large-v3"
                                        :: descriptors ["whisper-large-v3"]))])
  /\ assoc "data" [("data", PList (PStr "whisper-large-v3"
                                     :: descriptors ["whisper-large-v3"]))]
     = Some (PList (PStr "whisper-large-v3" :: descriptors ["whisper-large-v3"]))
  /\ is_dict (PStr "whisper-large-v3") = false
  /\ fst (validate_input sample_temperature sample_prompt
            (answer 200 (body_with_data
                           (PList (PStr "whisper-large-v3"
                                     :: descriptors ["whisper-large-v3"]))))
            (State sample_record [])) = Raise AttributeError.
Proof.
  do 5 (split; [reflexivity|]).
  apply (validate_input_entry_not_a_dict sample_temperature sample_prompt
           (answer 200 (body_with_data
                          (PList (PStr "whisper-large-v3"
                                    :: descriptors ["whisper-large-v3"]))))
           sample_record []
           (reply 200 (body_with_data
                         (PList (PStr "whisper-large-v3"
                                   :: descriptors ["whisper-large-v3"]))))
           [("data", PList (PStr "whisper-large-v3"
                              :: descriptors ["whisper-large-v3"]))]
           (PStr "whisper-large-v3") (descriptors ["whisper-large-v3"]));
    reflexivity.
Defined.

Lemma validate_input_data_not_iterable_witness :
  answer 200 (body_with_data PNone) (models_request sample_record)
  = Return (reply 200 (body_with_data PNone))
  /\ status_code (reply 200 (body_with_data PNone)) = 200
  /\ json (reply 200 (body_with_data PNone)) = Return (PDict [("data", PNone)])
  /\ assoc "data" [("data", PNone)] = Some PNone
  /\ py_iter PNone = Raise TypeError
  /\ fst (validate_input sample_temperature sample_prompt
            (answer 200 (body_with_data PNone)) (State sample_record []))
     = Raise TypeError.
Proof.
  do 5 (split; [reflexivity|]).
  apply (validate_input_data_not_iterable sample_temperature sample_prompt
           (answer 200 (body_with_data PNone)) sample_record []
           (reply 200 (body_with_data PNone)) [("data", PNone)] PNone);
    reflexivity.
Defined.

Lemma validate_input_missing_model_matches_missing_id_witness :
  answer 200 (body_with_data (PList [PDict [("object", PStr "model")]]))
         (models_request record_without_model)
  = Return (reply 200 (body_with_data (PList [PDict [("object", PStr "model")]])))
  /\ status_code (reply 200 (body_with_data
                               (PList [PDict [("object", PStr "model")]]))) = 200
  /\ json (reply 200 (body_with_data (PList [PDict [("object", PStr "model")]])))
     = Return (PDict [("data", PList [PDict [("object", PStr "model")]])])
  /\ assoc "data" [("data", PList [PDict [("object", PStr "model")]])]
     = Some (PList [PDict [("object", PStr "model")]])
  /\ record_without_model !! CONF_MODEL = None
  /\ assoc "id" [("object", PStr "model")] = None
  /\ fst (validate_input sample_temperature sample_prompt
            (answer 200 (body_with_data (PList [PDict [("object", PStr "model")]])))
            (State record_without_model [])) = Return tt.
Proof.
  do 6 (split; [reflexivity|]).
  apply (validate_input_missing_model_matches_missing_id
           sample_temperature sample_prompt
           (answer 200 (body_with_data (PList [PDict [("object", PStr "model")]])))
           record_without_model []
           (reply 200 (body_with_data (PList [PDict [("object", PStr "model")]])))
           [("data", PList [PDict [("object", PStr "model")]])]
           [("object", PStr "model")] []);
    reflexivity.
Defined.

Lemma async_step_user_creates_entry_witness :
  fst (validate_input sample_temperature sample_prompt
         (answer 200 (listing ["whisper-large-v3"])) (State sample_record []))
  = Return tt
  /\ (async_step_user sample_temperature sample_prompt sample_name
        (answer 200 (listing ["whisper-large-v3"])) (Some sample_record) []
      = (Return (CreateEntry (default sample_name (sample_record !! CONF_NAME))
                   (normalized sample_temperature sample_prompt sample_record)),
         logger (snd (validate_input sample_temperature sample_prompt
                        (answer 200 (listing ["whisper-large-v3"]))
                        (State sample_record []))))
      /\ normalized sample_temperature sample_prompt sample_record !! CONF_API_KEY
         = Some (field CONF_API_KEY sample_record)).
Proof.
  split; [reflexivity|].
  apply (async_step_user_creates_entry sample_temperature sample_prompt
           sample_name (answer 200 (listing ["whisper-large-v3"]))
           sample_record []).
  reflexivity.
Defined.

Lemma failed_validation_persists_nothing_witness :
  fst (validate_input sample_temperature sample_prompt (answer 401 no_body)
         (State sample_record [])) = Raise InvalidAPIKey
  /\ ((forall title new_data,
         fst (async_step_user sample_temperature sample_prompt sample_name
                (answer 401 no_body) (Some sample_record) [])
         <> Return (CreateEntry title new_data))
      /\ (forall entry entry' title uid new_data why,
            fst (async_step_reconfigure sample_temperature sample_prompt
                   sample_name (answer 401 no_body) (Some entry)
                   (Some sample_record) [])
            <> Return (UpdateReloadAndAbort entry' title uid new_data why))).
Proof.
  split; [reflexivity|].
  apply (failed_validation_persists_nothing sample_temperature sample_prompt
           sample_name (answer 401 no_body) sample_record [] InvalidAPIKey).
  reflexivity.
Defined.

Lemma async_step_user_status_errors_witness :
  answer 500 no_body (models_request sample_record)
  = Return (reply 500 no_body)
  /\ status_code (reply 500 no_body) <> 200
  /\ fst (async_step_user sample_temperature sample_prompt sample_name
            (answer 500 no_body) (Some sample_record) [])
     = Return (ShowForm "user" None
                 (if Z.eqb (status_code (reply 500 no_body)) 401
                  then <[CONF_API_KEY := "invalid_api_key"]> ∅
                  else if Z.eqb (status_code (reply 500 no_body)) 403
                       then <["base" := "unauthorized"]> ∅
                       else <["base" := "unknown"]> ∅)).
Proof.
  split; [reflexivity|]. split; [discriminate|].
  apply (async_step_user_status_errors sample_temperature sample_prompt
           sample_name (answer 500 no_body) sample_record []
           (reply 500 no_body));
    [reflexivity | discriminate].
Defined.

Lemma async_step_user_model_not_listed_witness :
  answer 200 (listing ["other-model"]) (models_request sample_record)
  = Return (reply 200 (listing ["other-model"]))
  /\ status_code (reply 200 (listing ["other-model"])) = 200
  /\ json (reply 200 (listing ["other-model"]))
     = Return (PDict [("data", PList (descriptors ["other-model"]))])
  /\ assoc "data" [("data", PList (descriptors ["other-model"]))]
     = Some (PList (descriptors ["other-model"]))
  /\ descriptors ["other-model"] <> []
  /\ forallb is_dict (descriptors ["other-model"]) = true
  /\ forallb wf_pyval (descriptors ["other-model"]) = true
  /\ existsb (has_id (field CONF_MODEL sample_record))
             (descriptors ["other-model"]) = false
  /\ fst (async_step_user sample_temperature sample_prompt sample_name
            (answer 200 (listing ["other-model"])) (Some sample_record) [])
     = Return (ShowForm "user" None
                 (<["base" := "whisper_model_not_found"]> ∅)).
Proof.
  do 4 (split; [reflexivity|]). split; [discriminate|].
  do 3 (split; [reflexivity|]).
  apply (async_step_user_model_not_listed sample_temperature sample_prompt
           sample_name (answer 200 (listing ["other-model"])) sample_record []
           (reply 200 (listing ["other-model"]))
           [("data", PList (descriptors ["other-model"]))]
           (descriptors ["other-model"]));
    first [reflexivity | discriminate].
Defined.

Lemma unhandled_exception_escapes_flow_witness :
  fst (validate_input sample_temperature sample_prompt
         (answer 200 (body_with_data PNone)) (State sample_record []))
  = Raise TypeError
  /\ is_handled TypeError = false
  /\ (async_step_user sample_temperature sample_prompt sample_name
        (answer 200 (body_with_data PNone)) (Some sample_record) []
      = (Raise TypeError,
         logger (snd (validate_input sample_temperature sample_prompt
                        (answer 200 (body_with_data PNone))
                        (State sample_record []))))
      /\ (forall entry,
            async_step_reconfigure sample_temperature sample_prompt sample_name
              (answer 200 (body_with_data PNone)) (Some entry)
              (Some sample_record) []
            = (Raise TypeError,
               logger (snd (validate_input sample_temperature sample_prompt
                              (answer 200 (body_with_data PNone))
                              (State sample_record [])))))).
Proof.
  do 2 (split; [reflexivity|]).
  apply (unhandled_exception_escapes_flow sample_temperature sample_prompt
           sample_name (answer 200 (body_with_data PNone)) sample_record []
           TypeError); reflexivity.
Defined.

Lemma except_clauses_distinguish_witness :
  fst (except_clauses UnknownError (State sample_record []))
  = Return (<["base" := "unknown"]> ∅)
  /\ fst (except_clauses UnknownError (State ∅ []))
     = Return (<["base" := "unknown"]> ∅)
  /\ (UnknownError = UnknownError
      \/ exists k1 k2, UnknownError = RequestException k1
                       /\ UnknownError = RequestException k2).
Proof.
  do 2 (split; [reflexivity|]).
  apply (except_clauses_distinguish UnknownError UnknownError
           (State sample_record []) (State ∅ []) (<["base" := "unknown"]> ∅));
    reflexivity.
Defined.


Lemma async_step_reconfigure_updates_entry_witness :
  fst (validate_input sample_temperature sample_prompt
         (answer 200 (listing ["whisper-large-v3"])) (State sample_record []))
  = Return tt
  /\ async_step_reconfigure sample_temperature sample_prompt sample_name
       (answer 200 (listing ["whisper-large-v3"])) (Some sample_entry)
       (Some sample_record) []
     = (Return (UpdateReloadAndAbort sample_entry
                  (default sample_name (sample_record !! CONF_NAME))
                  (unique_id sample_entry)
                  (normalized sample_temperature sample_prompt sample_record)
                  "reconfigure_successful"),
        logger (snd (validate_input sample_temperature sample_prompt
                       (answer 200 (listing ["whisper-large-v3"]))
                       (State sample_record [])))).
Proof.
  split; [reflexivity|].
  apply (async_step_reconfigure_updates_entry sample_temperature sample_prompt
           sample_name (answer 200 (listing ["whisper-large-v3"]))
           sample_entry sample_record []).
  reflexivity.
Defined.

Lemma async_step_reconfigure_suggests_submission_witness :
  fst (validate_input sample_temperature sample_prompt (answer 401 no_body)
         (State sample_record [])) = Raise InvalidAPIKey
  /\ is_handled InvalidAPIKey = true
  /\ exists errors,
       fst (async_step_reconfigure sample_temperature sample_prompt sample_name
              (answer 401 no_body) (Some sample_entry) (Some sample_record) [])
       = Return (ShowForm "reconfigure"
                   (Some (if bool_decide (sample_record = ∅)
                          then entry_data sample_entry
                          else normalized sample_temperature sample_prompt
                                          sample_record))
                   errors)
       /\ fst (except_clauses InvalidAPIKey
                 (snd (validate_input sample_temperature sample_prompt
                         (answer 401 no_body) (State sample_record []))))
          = Return errors.
Proof.
  do 2 (split; [reflexivity|]).
  apply (async_step_reconfigure_suggests_submission sample_temperature
           sample_prompt sample_name (answer 401 no_body) sample_entry
           sample_record [] InvalidAPIKey); reflexivity.
Defined.

Lemma validate_input_one_request_witness :
  answer 401 no_body (models_request sample_record)
  = picky_transport (models_request sample_record)
  /\ validate_input sample_temperature sample_prompt (answer 401 no_body)
       (State sample_record [])
     = validate_input sample_temperature sample_prompt picky_transport
         (State sample_record []).
Proof.
  split; [reflexivity|].
  apply (validate_input_one_request sample_temperature sample_prompt
           (answer 401 no_body) picky_transport sample_record []).
  reflexivity.
Defined.
